(** * raw-file-converter: the CSV to depository RAW conversion of [app.py]

    A shallow embedding of [src/app.py]: the sequence allocator
    ([get_next_file_id], [get_file_counter]) and the request handler
    [upload_csv] with its duplicate check, date validation, per-row
    classification and normalisation, tag rendering and envelope.

    Python [str] values are [string]s whose characters are read as code
    points below 256; Python [int]s are [Z]; [dict]s are [gmap string string];
    the database tables, the counter file and the two output folders are
    fields of an explicit [World] that every operation threads through.
    Library calls whose code is not part of the repository ([hashlib.sha256],
    [csv.reader], [dateutil.parser.parse], [float] with fixed-point
    formatting) are parameters of the pipeline; module [Ref] gives reference
    models of them, used to evaluate the handler on concrete requests. *)

From Stdlib Require Import ZArith Ascii Bool Lia.
From Stdlib Require String.
From stdpp Require Import gmap strings list fin_maps.

(** ** Python string operations used by the handler *)

Module PyStr.

(** Characters removed by [str.strip()] (code points below 256). *)
Definition is_space (c : ascii) : bool :=
  match c with
  | "009" | "010" | "011" | "012" | "013"
  | "028" | "029" | "030" | "031" | " " | "133" | "160" => true
  | _ => false
  end%char.

Fixpoint lstrip (s : string) : string :=
  match s with
  | EmptyString => EmptyString
  | String c s' => if is_space c then lstrip s' else s
  end.

Fixpoint rstrip (s : string) : string :=
  match s with
  | EmptyString => EmptyString
  | String c s' =>
      match rstrip s' with
      | EmptyString => if is_space c then EmptyString else String c EmptyString
      | r => String c r
      end
  end.

Definition strip (s : string) : string := rstrip (lstrip s).

(** [s.replace(c, "")] for a one-character [c]. *)
Fixpoint remove_char (c : ascii) (s : string) : string :=
  match s with
  | EmptyString => EmptyString
  | String a s' =>
      if Ascii.eqb a c then remove_char c s' else String a (remove_char c s')
  end.

Definition startswith (p s : string) : bool := String.prefix p s.

(** [s[:n]] and [s[n:]] for a non-negative [n]. *)
Fixpoint take (n : nat) (s : string) : string :=
  match n, s with
  | S n', String c s' => String c (take n' s')
  | _, _ => EmptyString
  end.

Fixpoint drop (n : nat) (s : string) : string :=
  match n, s with
  | S n', String _ s' => drop n' s'
  | _, _ => s
  end.

Fixpoint zeros (n : nat) : string :=
  match n with
  | O => EmptyString
  | S n' => String "0" (zeros n')
  end.

(** [s.zfill(width)]: a leading sign stays in front of the padding. *)
Definition zfill (width : nat) (s : string) : string :=
  if width <=? String.length s then s
  else
    let fill := width - String.length s in
    match s with
    | String c s' =>
        if Ascii.eqb c "+" || Ascii.eqb c "-"
        then String c (zeros fill +:+ s')
        else zeros fill +:+ s
    | EmptyString => zeros fill
    end.

Definition digit_char (d : Z) : ascii := ascii_of_nat (48 + Z.to_nat d).

Fixpoint digits_fuel (fuel : nat) (n : Z) (acc : string) : string :=
  match fuel with
  | O => acc
  | S f =>
      let acc' := String (digit_char (n mod 10)) acc in
      if (n / 10 =? 0)%Z then acc' else digits_fuel f (n / 10)%Z acc'
  end.

Definition str_nonneg (n : Z) : string :=
  digits_fuel (S (Z.to_nat (Z.log2 n))) n EmptyString.

(** [str(n)] for an [int]. *)
Definition str_int (n : Z) : string :=
  if (n <? 0)%Z then String "-" (str_nonneg (- n)) else str_nonneg n.

(** [sep.join(l)]. *)
Definition join (sep : string) (l : list string) : string :=
  String.concat sep l.

(** Line boundaries of [str.splitlines()] (code points below 256). *)
Definition is_linebreak (c : ascii) : bool :=
  match c with
  | "010" | "011" | "012" | "013" | "028" | "029" | "030" | "133" => true
  | _ => false
  end%char.

(** [splitlines_aux cur s]: [cur] is the current line, reversed. A carriage
    return directly followed by a line feed is one boundary; a final line
    is produced only when it is not empty. *)
Fixpoint splitlines_aux (cur : list ascii) (s : string) : list string :=
  match s with
  | EmptyString =>
      match cur with
      | [] => []
      | _ => [String.string_of_list_ascii (rev cur)]
      end
  | String c s' =>
      if is_linebreak c then
        String.string_of_list_ascii (rev cur) ::
        match c, s' with
        | "013"%char, String "010"%char s'' => splitlines_aux [] s''
        | _, _ => splitlines_aux [] s'
        end
      else splitlines_aux (c :: cur) s'
  end.

Definition splitlines (s : string) : list string := splitlines_aux [] s.

End PyStr.

(** ** Calendar dates and the two [strftime] formats of the program *)

Record date := mkDate { year : Z; month : Z; day : Z }.

(** The range of [datetime]: years 1 to 9999, with the zero-padded
    four-digit rendering of [%Y]. *)
Definition date_in_range (d : date) : Prop :=
  (1 <= year d <= 9999)%Z ∧ (1 <= month d <= 12)%Z ∧ (1 <= day d <= 31)%Z.

Definition pad (width : nat) (n : Z) : string :=
  PyStr.zfill width (PyStr.str_int n).

(** [d.strftime('%Y-%m-%d')] *)
Definition strftime_Ymd (d : date) : string :=
  pad 4 (year d) +:+ "-" +:+ pad 2 (month d) +:+ "-" +:+ pad 2 (day d).

(** [d.strftime('%d%m%Y')] *)
Definition strftime_dmY (d : date) : string :=
  pad 2 (day d) +:+ pad 2 (month d) +:+ pad 4 (year d).

(** ** Constants of the program *)

Definition UPLOAD_FOLDER : string := "uploads".
Definition CSV_FOLDER : string := "csv_files".
Definition RECONVERTED_FOLDER : string := "reconverted".

Definition Bnfcry : string := "1207650000865934".
Definition RAW_HEADER_PREFIX : string := "076500DPADM".

Definition CONSTANT_FIELDS : gmap string string :=
  <["Paymod" := "2"]> (<["Rsn" := "2"]> (<["Trf" := "X"]>
    (<["Flg" := "S"]> (<["Bnfcry" := Bnfcry]> ∅)))).

Definition RAW_ORDER_NSDL : list string :=
  ["Tp"; "Dt"; "Bnfcry"; "ISIN"; "Qty"; "Flg"; "Trf"; "Clnt"; "Brkr";
   "Rsn"; "Conamt"; "Paymod"; "Bnkno"; "Bnkname"; "Brnchname"; "Xferdt";
   "Chqrefno"].

Definition RAW_ORDER_CDSL : list string :=
  ["Tp"; "Dt"; "Bnfcry"; "CtrPty"; "ISIN"; "Qty"; "Flg"; "Trf";
   "Rsn"; "Conamt"; "Paymod"; "Bnkno"; "Bnkname"; "Brnchname"; "Xferdt";
   "Chqrefno"].

(** ** Persistent state *)

(** Row of the [FileCounter] table. *)
Record FileCounter := mkFileCounter { last_id : Z; last_date : string }.

(** Row of the [UploadedFile] table. *)
Record UploadedFile := mkUploadedFile {
  file_id : string;
  original_filename : string;
  csv_content : string;
  raw_content : string;
  raw_filename : string;
  file_hash : string
}.

(** The object stored in [counter.json]; [data.get] reads a key that may be
    missing. *)
Record CounterJson := mkCounterJson {
  json_last_id : option Z;
  json_last_date : option string
}.

Record World := mkWorld {
  db_counter : option FileCounter;      (* FileCounter.query.first() *)
  db_uploaded : list UploadedFile;      (* UploadedFile rows, oldest first *)
  counter_file : option CounterJson;    (* counter.json, None when absent *)
  files : gmap string string            (* written files, by path *)
}.

Definition set_db_counter (c : FileCounter) (w : World) : World :=
  mkWorld (Some c) (db_uploaded w) (counter_file w) (files w).

Definition set_counter_file (j : CounterJson) (w : World) : World :=
  mkWorld (db_counter w) (db_uploaded w) (Some j) (files w).

Definition add_uploaded (u : UploadedFile) (w : World) : World :=
  mkWorld (db_counter w) (db_uploaded w ++ [u]) (counter_file w) (files w).

Definition write_file (path content : string) (w : World) : World :=
  mkWorld (db_counter w) (db_uploaded w) (counter_file w)
          (<[path := content]> (files w)).

Definition path_join (folder name : string) : string :=
  folder +:+ "/" +:+ name.

(** ** Sequence allocator *)

(** [get_file_counter]: the counter kept in [counter.json]. [now] is the
    value of [datetime.now()]. *)
Definition get_file_counter (now : date) (w : World) : Z * World :=
  let today := strftime_Ymd now in
  match counter_file w with
  | None =>
      (1%Z, set_counter_file (mkCounterJson (Some 1%Z) (Some today)) w)
  | Some data =>
      let '(new_id, new_date) :=
        if decide (json_last_date data ≠ Some today)
        then (1%Z, Some today)
        else ((default 0%Z (json_last_id data) + 1)%Z, json_last_date data) in
      (new_id, set_counter_file (mkCounterJson (Some new_id) new_date) w)
  end.

(** [get_next_file_id]: the counter kept in the database; when the database
    raises ([db_ok = false]) the file counter answers instead. *)
Definition get_next_file_id (db_ok : bool) (now : date) (w : World)
  : Z * World :=
  if db_ok then
    let today := strftime_Ymd now in
    match db_counter w with
    | None => (1%Z, set_db_counter (mkFileCounter 1 today) w)
    | Some counter =>
        let counter' :=
          if decide (last_date counter ≠ today)
          then mkFileCounter 1 today
          else mkFileCounter (last_id counter + 1) (last_date counter) in
        (last_id counter', set_db_counter counter' w)
    end
  else get_file_counter now w.

(** A run of allocations, one clock reading per call. *)
Fixpoint allocate_all (db_ok : bool) (clock : list date) (w : World)
  : list Z * World :=
  match clock with
  | [] => ([], w)
  | now :: rest =>
      let '(i, w1) := get_next_file_id db_ok now w in
      let '(ids, w2) := allocate_all db_ok rest w1 in
      (i :: ids, w2)
  end.

(** ** Requests, responses and early returns *)

(** What one request observes of its environment: the two readings of
    [datetime.now()] (inside the allocator, and for the file name and
    header), and whether each of the three guarded database accesses
    succeeds. *)
Record Env := mkEnv {
  now_alloc : date;
  now_name : date;
  db_lookup_ok : bool;
  db_counter_ok : bool;
  db_save_ok : bool
}.

(** The uploaded file of the request: [file.filename] and the decoded
    [file.read()]. A request without the part [csv_file] has no such
    file ([None] below). *)
Record Upload := mkUpload {
  upload_filename : string;
  upload_content : string
}.

(** The bodies the handler returns. *)
Inductive Response :=
| NoFileUploaded
| FileAlreadyExists (name : string)
| CsvFormatInvalid
| MissingDtFirstRow
| InvalidDtFirstRow (v : string)
| DtMismatch (dt_val file_date : string)
| InvalidDtFormat (v : string)
| InvalidCtrPty (v : string)
| InvalidQty (v : string)
| InvalidConamt (v : string)
| RawFileCreated (name : string).

Definition download_link (name : string) : string :=
  "<a href='/download/reconverted/" +:+ name +:+ "'>" +:+ name +:+ "</a>".

Definition response_text (r : Response) : string :=
  match r with
  | NoFileUploaded => "No file uploaded."
  | FileAlreadyExists name => "File already exists: " +:+ download_link name
  | CsvFormatInvalid => "CSV format invalid."
  | MissingDtFirstRow => "Missing Dt in first row."
  | InvalidDtFirstRow v => "Invalid Dt format in first row: " +:+ v
  | DtMismatch dt_val file_date =>
      "Mismatch: Dt " +:+ dt_val +:+ " does not match file date " +:+ file_date
  | InvalidDtFormat v => "Invalid Dt format: " +:+ v
  | InvalidCtrPty v =>
      "Invalid CtrPty: " +:+ v +:+ ". Must be exactly 16 characters."
  | InvalidQty v => "Invalid Qty: " +:+ v
  | InvalidConamt v => "Invalid Conamt: " +:+ v
  | RawFileCreated name => "Raw file created: " +:+ download_link name
  end.

(** The error classes of the specification. *)
Inductive ErrorClass :=
| FormatError | MissingFieldError | DateFormatError | DateMismatchError
| InvalidCounterpartyError | NumericFormatError.

Definition error_class (r : Response) : option ErrorClass :=
  match r with
  | CsvFormatInvalid => Some FormatError
  | MissingDtFirstRow => Some MissingFieldError
  | InvalidDtFirstRow _ | InvalidDtFormat _ => Some DateFormatError
  | DtMismatch _ _ => Some DateMismatchError
  | InvalidCtrPty _ => Some InvalidCounterpartyError
  | InvalidQty _ | InvalidConamt _ => Some NumericFormatError
  | NoFileUploaded | FileAlreadyExists _ | RawFileCreated _ => None
  end.

(** A step of the handler either goes on with a value or returns a
    response at once. *)
Inductive result (A : Type) : Type :=
| Ok (a : A)
| Return (r : Response).
Arguments Ok {A} a.
Arguments Return {A} r.

#[global] Instance result_ret : MRet result := fun A a => Ok a.
#[global] Instance result_bind : MBind result := fun A B f m =>
  match m with
  | Ok a => f a
  | Return r => Return r
  end.

(** [dict(pairs)]: a later pair replaces an earlier one with the same key. *)
Definition dict (pairs : list (string * string)) : gmap string string :=
  foldl (fun m p => <[p.1 := p.2]> m) ∅ pairs.

(** [d.get(k, '')] *)
Definition get_or_empty (d : gmap string string) (k : string) : string :=
  default EmptyString (d !! k).

(** Truth value of a [str]. *)
Definition nonempty (s : string) : bool :=
  match s with EmptyString => false | _ => true end.

(** Truth value of an uploaded file: that of its file name. A form sent
    with no file chosen carries a part with an empty name, which
    [if not file] treats like a missing part. *)
Definition file_given (file : Upload) : bool :=
  nonempty (upload_filename file).

(** ** The handler [upload_csv] *)

Section Pipeline.

(** [hashlib.sha256(s.encode()).hexdigest()] *)
Variable sha256_hexdigest : string → string.
(** [list(csv.reader(lines))] *)
Variable csv_reader : list string → list (list string).
(** [parser.parse(s, dayfirst=True)]; [None] when it raises. *)
Variable parse_dayfirst : string → option date.
(** [f"{float(s):.{n}f}"]; [None] when [float(s)] raises [ValueError]. *)
Variable float_fixed : nat → string → option string.

(** [dict(zip(headers, row))] *)
Definition row_dict_of (headers row : list string) : gmap string string :=
  dict (zip headers row).

(** The date of the first data row, normalised: the file date. *)
Definition first_row_date (headers row : list string) : result string :=
  match row_dict_of headers row !! "Dt" with
  | None => Return MissingDtFirstRow
  | Some v =>
      if nonempty v then
        match parse_dayfirst v with
        | Some d => Ok (strftime_dmY d)
        | None => Return (InvalidDtFirstRow v)
        end
      else Return MissingDtFirstRow
  end.

(** The loop that makes sure all rows share the file date. *)
Fixpoint check_dates (headers : list string) (file_date : string)
         (data_rows : list (list string)) : result unit :=
  match data_rows with
  | [] => Ok ()
  | row :: rest =>
      match row_dict_of headers row !! "Dt" with
      | Some v =>
          if nonempty v then
            match parse_dayfirst v with
            | Some d =>
                let dt_val := strftime_dmY d in
                if decide (dt_val ≠ file_date)
                then Return (DtMismatch dt_val file_date)
                else check_dates headers file_date rest
            | None => Return (InvalidDtFormat v)
            end
          else check_dates headers file_date rest
      | None => check_dates headers file_date rest
      end
  end.

Definition validate_dates (headers : list string)
           (data_rows : list (list string)) : result string :=
  file_date ← first_row_date headers (List.hd [] data_rows);
  _ ← check_dates headers file_date data_rows;
  Ok file_date.

(** Normalisation of [Dt] in the body loop. *)
Definition normalize_dt (row_dict : gmap string string)
  : result (gmap string string) :=
  match row_dict !! "Dt" with
  | Some v =>
      if nonempty v then
        match parse_dayfirst v with
        | Some d => Ok (<["Dt" := strftime_dmY d]> row_dict)
        | None => Return (InvalidDtFormat v)
        end
      else Ok row_dict
  | None => Ok row_dict
  end.

(** Formatting of [Qty] (three decimals) and [Conamt] (two decimals):
    commas are removed, an empty value is left alone. *)
Definition format_amount (decimals : nat) (field : string)
           (invalid : string → Response) (row_dict : gmap string string)
  : result (gmap string string) :=
  let raw := get_or_empty row_dict field in
  let v := PyStr.remove_char "," raw in
  if nonempty v then
    match float_fixed decimals v with
    | Some s => Ok (<[field := s]> row_dict)
    | None => Return (invalid raw)
    end
  else Ok row_dict.

(** The test on [CtrPty] that rejects the row. *)
Definition ctrpty_rejected (ctrpty : string) : bool :=
  negb (nonempty ctrpty) || bool_decide (String.length ctrpty ≠ 16).

(** [Chqrefno], stripped and zero-padded to eight characters. *)
Definition pad_chqrefno (row_dict : gmap string string) : string :=
  let chqref := PyStr.strip (get_or_empty row_dict "Chqrefno") in
  if nonempty chqref then PyStr.zfill 8 chqref else "00000000".

(** One turn of the body loop up to [merged]: the tag order chosen for the
    row and the merged field map. *)
Definition canonical_record (headers row : list string)
  : result (list string * gmap string string) :=
  let row_dict := PyStr.strip <$> row_dict_of headers row in
  row_dict ← normalize_dt row_dict;
  let row_dict := <["Xferdt" := get_or_empty row_dict "Dt"]> row_dict in
  let ctrpty := get_or_empty row_dict "CtrPty" in
  if ctrpty_rejected ctrpty then Return (InvalidCtrPty ctrpty)
  else
    let is_nsdl := PyStr.startswith "IN" ctrpty in
    let tp_value := if is_nsdl then "4" else "5" in
    let '(row_dict, order) :=
      if is_nsdl
      then (<["Clnt" := PyStr.drop 8 ctrpty]>
              (<["Brkr" := PyStr.take 8 ctrpty]> row_dict),
            RAW_ORDER_NSDL)
      else (delete "Brkr" (delete "Clnt" (<["CtrPty" := ctrpty]> row_dict)),
            RAW_ORDER_CDSL) in
    row_dict ← format_amount 3 "Qty" InvalidQty row_dict;
    row_dict ← format_amount 2 "Conamt" InvalidConamt row_dict;
    let row_dict := <["Chqrefno" := pad_chqrefno row_dict]> row_dict in
    let merged := <["Tp" := tp_value]> (row_dict ∪ CONSTANT_FIELDS) in
    Ok (order, merged).

Definition render_tag (merged : gmap string string) (k : string) : string :=
  "<" +:+ k +:+ ">" +:+ get_or_empty merged k +:+ "</" +:+ k +:+ ">".

(** The line of a row: its tags in the chosen order, nothing in between. *)
Definition render_line (order : list string) (merged : gmap string string)
  : string :=
  PyStr.join EmptyString (map (render_tag merged) order).

Definition process_row (headers row : list string) : result string :=
  '(order, merged) ← canonical_record headers row;
  Ok (render_line order merged).

(** The body loop: the first row that fails ends the request. *)
Fixpoint build_body (headers : list string) (data_rows : list (list string))
  : result (list string) :=
  match data_rows with
  | [] => Ok []
  | row :: rest =>
      match process_row headers row with
      | Return r => Return r
      | Ok line =>
          match build_body headers rest with
          | Return r => Return r
          | Ok lines => Ok (line :: lines)
          end
      end
  end.

Definition make_filename (todays_date file_id : string) : string :=
  "18" +:+ Bnfcry +:+ "." +:+ todays_date +:+ "." +:+ file_id.

Definition make_raw_header (row_count file_id todays_date : string)
  : string :=
  RAW_HEADER_PREFIX +:+ " " +:+ row_count +:+ file_id +:+ todays_date.

(** [UploadedFile.query.filter_by(file_hash=h).first()] *)
Definition find_by_hash (h : string) (rows : list UploadedFile)
  : option UploadedFile :=
  List.find (fun u => bool_decide (file_hash u = h)) rows.

Definition newline : string := String "010" EmptyString.

Definition upload_csv (env : Env) (file : option Upload) (w : World)
  : Response * World :=
  match file with
  | None => (NoFileUploaded, w)
  | Some file =>
      if negb (file_given file) then (NoFileUploaded, w)
      else
      let content := upload_content file in
      let hash := sha256_hexdigest content in
      let existing_file :=
        if db_lookup_ok env then find_by_hash hash (db_uploaded w)
        else None in
      match existing_file with
      | Some existing => (FileAlreadyExists (raw_filename existing), w)
      | None =>
          let all_rows := csv_reader (PyStr.splitlines content) in
          if bool_decide (length all_rows < 2) then (CsvFormatInvalid, w)
          else
            let headers := map PyStr.strip (List.hd [] all_rows) in
            let data_rows := List.tl all_rows in
            let row_count :=
              PyStr.zfill 6 (PyStr.str_int (Z.of_nat (length data_rows))) in
            match validate_dates headers data_rows with
            | Return r => (r, w)
            | Ok file_date =>
                let '(file_id_int, w) :=
                  get_next_file_id (db_counter_ok env) (now_alloc env) w in
                let file_id := PyStr.zfill 5 (PyStr.str_int file_id_int) in
                let todays_date := strftime_dmY (now_name env) in
                let filename := make_filename todays_date file_id in
                let reconvert_path :=
                  path_join RECONVERTED_FOLDER filename in
                let raw_header :=
                  make_raw_header row_count file_id todays_date in
                match build_body headers data_rows with
                | Return r => (r, w)
                | Ok lines =>
                    let output_lines :=
                      raw_header :: lines ++ [EmptyString] in
                    let raw := PyStr.join newline output_lines in
                    let w :=
                      if db_save_ok env
                      then add_uploaded
                             (mkUploadedFile file_id (upload_filename file)
                                content raw filename hash) w
                      else w in
                    let csv_path :=
                      path_join CSV_FOLDER (file_id +:+ ".csv") in
                    let w := write_file csv_path content w in
                    let w := write_file reconvert_path raw w in
                    (RawFileCreated filename, w)
                end
            end
      end
  end.

(** The duplicate found for a request, if the lookup works. *)
Definition duplicate_of (env : Env) (file : Upload) (w : World)
  : option UploadedFile :=
  if db_lookup_ok env
  then find_by_hash (sha256_hexdigest (upload_content file)) (db_uploaded w)
  else None.

Definition rows_of (file : Upload) : list (list string) :=
  csv_reader (PyStr.splitlines (upload_content file)).

Definition headers_of (file : Upload) : list string :=
  map PyStr.strip (List.hd [] (rows_of file)).

Definition data_rows_of (file : Upload) : list (list string) :=
  List.tl (rows_of file).

(** The world after a request that went through: the allocation, the
    optional database row, the copy of the input and the RAW file. *)
Definition created_world (env : Env) (file : Upload) (lines : list string)
           (w : World) : string * World :=
  let alloc := get_next_file_id (db_counter_ok env) (now_alloc env) w in
  let file_id := PyStr.zfill 5 (PyStr.str_int alloc.1) in
  let todays_date := strftime_dmY (now_name env) in
  let filename := make_filename todays_date file_id in
  let row_count :=
    PyStr.zfill 6
      (PyStr.str_int (Z.of_nat (length (data_rows_of file)))) in
  let raw :=
    PyStr.join newline
      (make_raw_header row_count file_id todays_date
         :: lines ++ [EmptyString]) in
  let w1 :=
    if db_save_ok env
    then add_uploaded
           (mkUploadedFile file_id (upload_filename file)
              (upload_content file) raw filename
              (sha256_hexdigest (upload_content file))) alloc.2
    else alloc.2 in
  (filename,
   write_file (path_join RECONVERTED_FOLDER filename) raw
     (write_file (path_join CSV_FOLDER (file_id +:+ ".csv"))
        (upload_content file) w1)).

(** What the date of a row must be for the validation loop to go on. *)
Definition date_agrees (hs : list string) (file_date : string)
           (row : list string) : Prop :=
  match row_dict_of hs row !! "Dt" with
  | Some v =>
      nonempty v = true →
      ∃ d, parse_dayfirst v = Some d ∧ strftime_dmY d = file_date
  | None => True
  end.

End Pipeline.

(** ** Reference models of the library calls *)

Module Ref.

(** *** [csv.reader] with the default dialect

    Comma as delimiter, the double quote as quote character, doubled
    inside a quoted field, not strict, no escape character, read from lines that hold no
    line terminator (what [splitlines] produces). The limit on the size
    of a field is not modelled. *)

Inductive csv_state :=
| START_RECORD | START_FIELD | IN_FIELD | IN_QUOTED_FIELD
| QUOTE_IN_QUOTED_FIELD.

Record csv_parser := mkParser {
  p_state : csv_state;
  p_field : list ascii;     (* the field being read, reversed *)
  p_fields : list string    (* the fields of the record, reversed *)
}.

Definition parse_reset : csv_parser := mkParser START_RECORD [] [].

Definition parse_save_field (p : csv_parser) (next : csv_state)
  : csv_parser :=
  mkParser next [] (String.string_of_list_ascii (rev (p_field p)) :: p_fields p).

Definition parse_add_char (p : csv_parser) (c : ascii) (next : csv_state)
  : csv_parser :=
  mkParser next (c :: p_field p) (p_fields p).

Definition set_state (p : csv_parser) (next : csv_state) : csv_parser :=
  mkParser next (p_field p) (p_fields p).

Definition quotechar : ascii := "034"%char.
Definition delimiter : ascii := ","%char.

Definition parse_process_char (p : csv_parser) (c : ascii) : csv_parser :=
  match p_state p with
  | START_RECORD | START_FIELD =>
      if Ascii.eqb c quotechar then set_state p IN_QUOTED_FIELD
      else if Ascii.eqb c delimiter then parse_save_field p START_FIELD
      else parse_add_char p c IN_FIELD
  | IN_FIELD =>
      if Ascii.eqb c delimiter then parse_save_field p START_FIELD
      else parse_add_char p c IN_FIELD
  | IN_QUOTED_FIELD =>
      if Ascii.eqb c quotechar then set_state p QUOTE_IN_QUOTED_FIELD
      else parse_add_char p c IN_QUOTED_FIELD
  | QUOTE_IN_QUOTED_FIELD =>
      if Ascii.eqb c quotechar then parse_add_char p c IN_QUOTED_FIELD
      else if Ascii.eqb c delimiter then parse_save_field p START_FIELD
      else parse_add_char p c IN_FIELD
  end.

(** The end of a line. *)
Definition parse_process_eol (p : csv_parser) : csv_parser :=
  match p_state p with
  | START_RECORD => p
  | START_FIELD | IN_FIELD | QUOTE_IN_QUOTED_FIELD =>
      parse_save_field p START_RECORD
  | IN_QUOTED_FIELD => p
  end.

Fixpoint parse_line (p : csv_parser) (line : string) : csv_parser :=
  match line with
  | EmptyString => parse_process_eol p
  | String c rest => parse_line (parse_process_char p c) rest
  end.

(** The records read from the lines; a quoted field left open at the end
    of a line goes on in the next line, and is closed by the end of the
    input. *)
Fixpoint read_records (p : csv_parser) (lines : list string)
  : list (list string) :=
  match lines with
  | [] =>
      match p_state p with
      | IN_QUOTED_FIELD => [rev (p_fields (parse_save_field p START_RECORD))]
      | _ => []
      end
  | line :: rest =>
      let p' := parse_line p line in
      match p_state p' with
      | START_RECORD => rev (p_fields p') :: read_records parse_reset rest
      | _ => read_records p' rest
      end
  end.

Definition csv_reader (lines : list string) : list (list string) :=
  read_records parse_reset lines.

(** *** [dateutil.parser.parse(s, dayfirst=True)] on numeric dates

    The model covers the strings made of a one- or two-digit number, a
    separator [/] or [-], a one- or two-digit number, the same separator
    and a four-digit year from 1000 on; there it follows the resolution of three
    numeric members with [dayfirst] and the range check of [datetime].
    Every other string is outside the model, which answers [None]. *)

Definition is_digit (c : ascii) : bool :=
  (48 <=? nat_of_ascii c) && (nat_of_ascii c <=? 57).

Definition digit_val (c : ascii) : Z := Z.of_nat (nat_of_ascii c - 48).

Fixpoint digits_val (acc : Z) (s : string) : Z :=
  match s with
  | EmptyString => acc
  | String c s' => digits_val (10 * acc + digit_val c) s'
  end.

(** Splits off the longest prefix of digits. *)
Fixpoint span_digits (s : string) : string * string :=
  match s with
  | String c s' =>
      if is_digit c then
        let '(ds, rest) := span_digits s' in (String c ds, rest)
      else (EmptyString, s)
  | EmptyString => (EmptyString, EmptyString)
  end.

Definition is_leap (y : Z) : bool :=
  ((y mod 4 =? 0) && negb (y mod 100 =? 0) || (y mod 400 =? 0))%Z.

Definition days_in_month (y m : Z) : Z :=
  if (m =? 2)%Z then (if is_leap y then 29 else 28)%Z
  else if ((m =? 4) || (m =? 6) || (m =? 9) || (m =? 11))%Z then 30%Z
  else 31%Z.

(** [datetime(year, month, day)], [None] for a [ValueError]. *)
Definition make_date (y m d : Z) : option date :=
  if ((1 <=? y) && (y <=? 9999) && (1 <=? m) && (m <=? 12)
      && (1 <=? d) && (d <=? days_in_month y m))%Z
  then Some (mkDate y m d) else None.

(** Three numeric members [a], [b], [y], the last one the year. *)
Definition resolve_ymd_dayfirst (a b y : Z) : option date :=
  if (31 <? a)%Z then
    (* the first member is read as the year *)
    if (y <=? 12)%Z then make_date a y b else make_date a b y
  else if ((12 <? a) || (b <=? 12))%Z then make_date y b a
  else make_date y a b.

Definition is_date_sep (c : ascii) : bool :=
  Ascii.eqb c "/" || Ascii.eqb c "-".

Definition short_number (s : string) : bool :=
  bool_decide (1 ≤ String.length s ≤ 2).

Definition parse_dayfirst (s : string) : option date :=
  let '(a, r1) := span_digits s in
  match r1 with
  | String sep1 r1' =>
      let '(b, r2) := span_digits r1' in
      match r2 with
      | String sep2 r2' =>
          let '(y, r3) := span_digits r2' in
          if is_date_sep sep1 && Ascii.eqb sep1 sep2
             && short_number a && short_number b
             && bool_decide (String.length y = 4)
             && (1000 <=? digits_val 0 y)%Z
             && negb (nonempty r3)
          then resolve_ymd_dayfirst (digits_val 0 a) (digits_val 0 b)
                                    (digits_val 0 y)
          else None
      | EmptyString => None
      end
  | EmptyString => None
  end.

(** *** [float(s)] followed by fixed-point formatting

    [float] reads a decimal literal (underscores between digits, an
    optional exponent), [inf], [infinity] or [nan], rounds it to the
    nearest binary64 value, ties to even, and the format writes the exact
    binary value rounded to the asked number of decimals, ties to even. *)

Inductive float64 :=
| Fnan
| Finf (neg : bool)
| Ffinite (neg : bool) (m e : Z).   (* m * 2^e, 0 <= m <= 2^53 *)

Definition round_half_even (n d : Z) : Z :=
  let q := (n / d)%Z in
  let r := (n mod d)%Z in
  if (2 * r <? d)%Z then q
  else if (d <? 2 * r)%Z then (q + 1)%Z
  else if Z.even q then q else (q + 1)%Z.

(** The binary64 value nearest to [num / den], for positive [num], [den]. *)
Definition round_binary64 (neg : bool) (num den : Z) : float64 :=
  let e0 := (Z.log2 num - Z.log2 den - 53)%Z in
  let below :=
    if (0 <=? e0 + 53)%Z then (num <? den * 2 ^ (e0 + 53))%Z
    else (num * 2 ^ (- (e0 + 53)) <? den)%Z in
  let e := Z.max (if below then e0 else e0 + 1)%Z (-1074)%Z in
  let m :=
    if (0 <=? e)%Z then round_half_even num (den * 2 ^ e)
    else round_half_even (num * 2 ^ (- e)) den in
  if (1024 <=? Z.log2 m + e)%Z then Finf neg else Ffinite neg m e.

(** The value [mant * 10^e10]; [len] bounds the number of digits of
    [mant], so that exponents far outside the binary64 range are settled
    without computing the power. *)
Definition decimal_to_float (neg : bool) (mant e10 : Z) (len : Z)
  : float64 :=
  if (mant =? 0)%Z then Ffinite neg 0 0
  else if (310 <? e10)%Z then Finf neg
  else if (e10 <? - (330 + len))%Z then Ffinite neg 0 0
  else if (0 <=? e10)%Z then round_binary64 neg (mant * 10 ^ e10) 1
  else round_binary64 neg mant (10 ^ (- e10)).

(** Underscores are removed when each stands between two digits. *)
Fixpoint strip_underscores (prev : option ascii) (s : string)
  : option string :=
  match s with
  | EmptyString =>
      match prev with
      | Some "_"%char => None
      | _ => Some EmptyString
      end
  | String c s' =>
      if Ascii.eqb c "_" then
        match prev with
        | Some p => if is_digit p then strip_underscores (Some c) s' else None
        | None => None
        end
      else
        let ok :=
          match prev with
          | Some "_"%char => is_digit c
          | _ => true
          end in
        if ok then String c <$> strip_underscores (Some c) s' else None
  end.

(** White space that [float] skips on both sides. *)
Definition is_float_space (c : ascii) : bool :=
  match c with
  | "009" | "010" | "011" | "012" | "013" | " " | "133" | "160" => true
  | _ => false
  end%char.

Fixpoint float_lstrip (s : string) : string :=
  match s with
  | String c s' => if is_float_space c then float_lstrip s' else s
  | EmptyString => EmptyString
  end.

Fixpoint float_rstrip (s : string) : string :=
  match s with
  | EmptyString => EmptyString
  | String c s' =>
      match float_rstrip s' with
      | EmptyString =>
          if is_float_space c then EmptyString else String c EmptyString
      | r => String c r
      end
  end.

Definition lower (c : ascii) : ascii :=
  let n := nat_of_ascii c in
  if (65 <=? n) && (n <=? 90) then ascii_of_nat (n + 32) else c.

Fixpoint lower_string (s : string) : string :=
  match s with
  | EmptyString => EmptyString
  | String c s' => String (lower c) (lower_string s')
  end.

Definition split_sign (s : string) : bool * string :=
  match s with
  | String "-"%char s' => (true, s')
  | String "+"%char s' => (false, s')
  | _ => (false, s)
  end.

(** The exponent part: [e] or [E], an optional sign, digits, and nothing
    after them. The exponent is cut off where it no longer matters. *)
Definition parse_exponent (s : string) : option Z :=
  match s with
  | EmptyString => Some 0%Z
  | String c s' =>
      if Ascii.eqb (lower c) "e" then
        let '(neg, ds) := split_sign s' in
        let '(digs, rest) := span_digits ds in
        if nonempty digs && negb (nonempty rest) then
          let v :=
            if bool_decide (String.length (PyStr.remove_char "0" digs) ≤ 9)
            then digits_val 0 digs else 1000000000%Z in
          Some (if neg then (- v)%Z else v)
        else None
      else None
  end.

Definition parse_decimal (neg : bool) (s : string) : option float64 :=
  let '(ip, r1) := span_digits s in
  let '(fp, r2) :=
    match r1 with
    | String "."%char r1' => span_digits r1'
    | _ => (EmptyString, r1)
    end in
  if nonempty ip || nonempty fp then
    e ← parse_exponent r2;
    let mant := digits_val 0 (ip +:+ fp) in
    let e10 := (e - Z.of_nat (String.length fp))%Z in
    Some (decimal_to_float neg mant e10
            (Z.of_nat (String.length (ip +:+ fp))))
  else None.

(** [float(s)], [None] for a [ValueError]. *)
Definition float_of_string (s : string) : option float64 :=
  s1 ← strip_underscores None s;
  let s2 := float_rstrip (float_lstrip s1) in
  let '(neg, body) := split_sign s2 in
  let word := lower_string body in
  if bool_decide (word = "inf") || bool_decide (word = "infinity")
  then Some (Finf neg)
  else if bool_decide (word = "nan") then Some Fnan
  else parse_decimal neg body.

(** [f"{x:.{decimals}f}"] *)
Definition format_fixed (decimals : nat) (x : float64) : string :=
  match x with
  | Fnan => "nan"
  | Finf neg => if neg then "-inf" else "inf"
  | Ffinite neg m e =>
      let scale := (10 ^ Z.of_nat decimals)%Z in
      let r :=
        if (0 <=? e)%Z then (m * 2 ^ e * scale)%Z
        else round_half_even (m * scale) (2 ^ (- e)) in
      let body :=
        PyStr.str_int (r / scale) +:+
        match decimals with
        | O => EmptyString
        | _ => "." +:+ pad decimals (r mod scale)
        end in
      if neg then String "-" body else body
  end.

Definition float_fixed (decimals : nat) (s : string) : option string :=
  format_fixed decimals <$> float_of_string s.

(** *** [hashlib.sha256(s.encode()).hexdigest()] *)

Definition w32 (x : Z) : Z := Z.land x 0xffffffff.
Definition add32 (a b : Z) : Z := w32 (a + b).
Definition rotr (n x : Z) : Z :=
  Z.lor (Z.shiftr x n) (w32 (Z.shiftl x (32 - n))).

Definition Ch (x y z : Z) : Z :=
  Z.lxor (Z.land x y) (Z.land (Z.lxor x 0xffffffff) z).
Definition Maj (x y z : Z) : Z :=
  Z.lxor (Z.lxor (Z.land x y) (Z.land x z)) (Z.land y z).
Definition bsig0 (x : Z) : Z :=
  Z.lxor (Z.lxor (rotr 2 x) (rotr 13 x)) (rotr 22 x).
Definition bsig1 (x : Z) : Z :=
  Z.lxor (Z.lxor (rotr 6 x) (rotr 11 x)) (rotr 25 x).
Definition ssig0 (x : Z) : Z :=
  Z.lxor (Z.lxor (rotr 7 x) (rotr 18 x)) (Z.shiftr x 3).
Definition ssig1 (x : Z) : Z :=
  Z.lxor (Z.lxor (rotr 17 x) (rotr 19 x)) (Z.shiftr x 10).

(** The round constants are the first 32 bits of the fractional parts of
    the cube roots of the first 64 primes, the initial state those of the
    square roots of the first 8. *)
Definition is_prime (n : Z) : bool :=
  forallb (fun d => negb (n mod d =? 0)%Z) (seqZ 2 (n - 2)).

Definition first_primes : list Z := filter (fun n => is_prime n) (seqZ 2 310).

Fixpoint cube_root_between (fuel : nat) (lo hi n : Z) : Z :=
  match fuel with
  | O => lo
  | S f =>
      let mid := ((lo + hi) / 2)%Z in
      if (mid * mid * mid <=? n)%Z
      then cube_root_between f mid hi n
      else cube_root_between f lo mid n
  end.

Definition sha_K : list Z :=
  map (fun p => w32 (cube_root_between 40 0 (2 ^ 36) (p * 2 ^ 96))%Z)
      first_primes.

Definition sha_H0 : list Z :=
  map (fun p => w32 (Z.sqrt (p * 2 ^ 64))%Z) (take 8 first_primes).

(** UTF-8 bytes of a string of code points below 256. *)
Fixpoint utf8_encode (s : string) : list Z :=
  match s with
  | EmptyString => []
  | String c s' =>
      let n := Z.of_nat (nat_of_ascii c) in
      if (n <? 128)%Z then n :: utf8_encode s'
      else Z.lor 0xC0 (Z.shiftr n 6) :: Z.lor 0x80 (Z.land n 0x3F)
           :: utf8_encode s'
  end.

Definition be_bytes (count : nat) (x : Z) : list Z :=
  map (fun i => Z.land (Z.shiftr x (8 * Z.of_nat i)) 0xff)
      (rev (seq 0 count)).

Definition sha_pad (msg : list Z) : list Z :=
  let len := Z.of_nat (length msg) in
  msg ++ [0x80%Z] ++ replicate (Z.to_nat ((55 - len) mod 64)) 0%Z
      ++ be_bytes 8 (8 * len).

Fixpoint be_words (fuel : nat) (bytes : list Z) : list Z :=
  match fuel, bytes with
  | S f, b0 :: b1 :: b2 :: b3 :: rest =>
      Z.lor (Z.shiftl b0 24) (Z.lor (Z.shiftl b1 16)
            (Z.lor (Z.shiftl b2 8) b3)) :: be_words f rest
  | _, _ => []
  end.

(** The message schedule, latest word first. *)
Fixpoint schedule (count : nat) (w_rev : list Z) : list Z :=
  match count with
  | O => w_rev
  | S n =>
      let at_ i := nth i w_rev 0%Z in
      let w := add32 (add32 (ssig1 (at_ 1)) (at_ 6))
                     (add32 (ssig0 (at_ 14)) (at_ 15)) in
      schedule n (w :: w_rev)
  end.

Definition sha_round (st : list Z) (kw : Z * Z) : list Z :=
  match st with
  | [a; b; c; d; e; f; g; h] =>
      let t1 := add32 (add32 (add32 h (bsig1 e)) (Ch e f g))
                      (add32 kw.1 kw.2) in
      let t2 := add32 (bsig0 a) (Maj a b c) in
      [add32 t1 t2; a; b; c; add32 d t1; e; f; g]
  | _ => st
  end.

Definition sha_block (st : list Z) (words : list Z) : list Z :=
  let w := rev (schedule 48 (rev words)) in
  zip_with add32 st (foldl sha_round st (zip sha_K w)).

Fixpoint sha_blocks (fuel : nat) (st : list Z) (words : list Z) : list Z :=
  match fuel with
  | O => st
  | S f =>
      match words with
      | [] => st
      | _ => sha_blocks f (sha_block st (take 16 words)) (drop 16 words)
      end
  end.

Definition hex_digit (n : Z) : ascii :=
  if (n <? 10)%Z then ascii_of_nat (48 + Z.to_nat n)
  else ascii_of_nat (87 + Z.to_nat n).

Definition hex_word (x : Z) : string :=
  String.string_of_list_ascii
    (map (fun i => hex_digit (Z.land (Z.shiftr x (4 * Z.of_nat i)) 0xf))
         (rev (seq 0 8))).

Definition sha256_hexdigest (s : string) : string :=
  let bytes := sha_pad (utf8_encode s) in
  let words := be_words (length bytes) bytes in
  String.concat EmptyString
    (map hex_word (sha_blocks (length words) sha_H0 words)).

End Ref.

(** ** Views of the state and concrete requests used below *)

#[global] Instance date_eq_dec : EqDecision date.
Proof. solve_decision. Defined.

(** What the backend chosen by [db_ok] remembers: the last id and the day
    it was given on. *)
Definition counter_view (db_ok : bool) (w : World)
  : option (Z * option string) :=
  if db_ok
  then (fun c => (last_id c, Some (last_date c))) <$> db_counter w
  else (fun j => (default 0%Z (json_last_id j), json_last_date j))
         <$> counter_file w.

(** The id an allocation on day [now] gives from a remembered state. *)
Definition next_id (view : option (Z * option string)) (now : date) : Z :=
  match view with
  | None => 1%Z
  | Some (n, d) =>
      if decide (d = Some (strftime_Ymd now)) then (n + 1)%Z else 1%Z
  end.

(** The handler with the reference models of the library calls. *)
Definition ref_upload_csv : Env → option Upload → World → Response * World :=
  upload_csv Ref.sha256_hexdigest Ref.csv_reader Ref.parse_dayfirst
             Ref.float_fixed.

Definition ref_canonical_record :=
  canonical_record Ref.parse_dayfirst Ref.float_fixed.

Definition ref_process_row := process_row Ref.parse_dayfirst Ref.float_fixed.

Definition ref_validate_dates := validate_dates Ref.parse_dayfirst.

Definition empty_world : World := mkWorld None [] None ∅.

Definition nov_3 : date := mkDate 2026 11 3.
Definition nov_4 : date := mkDate 2026 11 4.

(** A request served on 3 November 2026 with the database up. *)
Definition env_nov_3 : Env := mkEnv nov_3 nov_3 true true true.

Definition csv_text (lines : list string) : string :=
  PyStr.join newline lines.

Definition csv_upload (lines : list string) : option Upload :=
  Some (mkUpload "batch.csv" (csv_text lines)).

(** The width and the value of a zero-padded number. *)
Definition pad_decodes (width : nat) (n : Z) : bool :=
  bool_decide (String.length (pad width n) = width)
  && bool_decide (Ref.digits_val 0 (pad width n) = n).

Definition clock_two_days : list date := [nov_3; nov_3; nov_3; nov_4; nov_4].

(** The responses of the date validation, and those of the body loop. *)
Definition date_phase_error (r : Response) : bool :=
  match r with
  | MissingDtFirstRow | InvalidDtFirstRow _ | DtMismatch _ _
  | InvalidDtFormat _ => true
  | _ => false
  end.

Definition row_phase_error (r : Response) : bool :=
  match r with
  | InvalidDtFormat _ | InvalidCtrPty _ | InvalidQty _ | InvalidConamt _ =>
      true
  | _ => false
  end.

(** Concrete requests. *)
Definition env_nov_4 : Env := mkEnv nov_4 nov_4 true true true.

Definition sample_header : string := "Dt,CtrPty,Qty,Conamt,Chqrefno".

Definition sample_lines : list string :=
  [sample_header; "01/01/2025,INXXXXXXXXXXXXXX,100,500.5,7"].

Definition sample_file : Upload := mkUpload "batch.csv" (csv_text sample_lines).

Definition sample_file_again : Upload :=
  mkUpload "again.csv" (csv_text sample_lines).

Definition sample_name : string := "181207650000865934.03112026.00001".

(** A data row with two cells under a header with five columns. *)
Definition ragged_lines : list string :=
  [sample_header; "01/01/2025,INXXXXXXXXXXXXXX"].

(** A row whose counter-party identifier has five characters. *)
Definition short_ctrpty_lines : list string :=
  [sample_header; "01/01/2025,SHORT,100,500.5,7"].

(** Batches of two rows with the dates [d1] and [d2]. *)
Definition two_dates_lines (d1 d2 : string) : list string :=
  [sample_header;
   d1 +:+ ",INXXXXXXXXXXXXXX,100,500.5,7";
   d2 +:+ ",INXXXXXXXXXXXXXX,100,500.5,8"].

(** The fields of a row as the body loop first sees them, and its
    counter-party identifier. *)
Definition trimmed_row (headers row : list string) : gmap string string :=
  PyStr.strip <$> row_dict_of headers row.

Definition ctrpty_of (headers row : list string) : string :=
  get_or_empty (trimmed_row headers row) "CtrPty".

(** The two outcomes of the classification of an identifier [c]: the type
    code, the tag order, and the fields written into the row. *)
Definition tp_of (c : string) : string :=
  if PyStr.startswith "IN" c then "4" else "5".

Definition order_of (c : string) : list string :=
  if PyStr.startswith "IN" c then RAW_ORDER_NSDL else RAW_ORDER_CDSL.

Definition classified (row_dict : gmap string string) (c : string)
  : gmap string string :=
  if PyStr.startswith "IN" c
  then <["Clnt" := PyStr.drop 8 c]> (<["Brkr" := PyStr.take 8 c]> row_dict)
  else delete "Brkr" (delete "Clnt" (<["CtrPty" := c]> row_dict)).

(** The last steps of a row: reference number, constants, type code. *)
Definition merged_of (row_dict : gmap string string) (c : string)
  : gmap string string :=
  <["Tp" := tp_of c]>
    (<["Chqrefno" := pad_chqrefno row_dict]> row_dict ∪ CONSTANT_FIELDS).

(** The values of the fields [ks] in the record of a row. *)
Definition fields_of (r : result (list string * gmap string string))
           (ks : list string) : result (list string) :=
  match r with
  | Ok (_, merged) => Ok (map (get_or_empty merged) ks)
  | Return x => Return x
  end.

(** The column [k] is none of those the classification writes. *)
Definition plain_column (k : string) : Prop :=
  k ≠ "Dt" ∧ k ≠ "Xferdt" ∧ k ≠ "Clnt" ∧ k ≠ "Brkr" ∧ k ≠ "CtrPty".

(** The stripped value of a column with its commas removed. *)
Definition without_commas (hs row : list string) (k : string) : string :=
  PyStr.remove_char "," (get_or_empty (trimmed_row hs row) k).

(** Concrete rows under the header of the sample. *)
Definition sample_headers : list string :=
  ["Dt"; "CtrPty"; "Qty"; "Conamt"; "Chqrefno"].

Definition row_nsdl : list string :=
  ["01/01/2025"; "INXXXXXXXXXXXXXX"; "1,234.5"; "999"; EmptyString].

Definition row_cdsl : list string :=
  ["01/01/2025"; "inXXXXXXXXXXXXXX"; EmptyString; EmptyString; "42"].

Definition row_short : list string :=
  ["01/01/2025"; "SHORT"; "100"; "500.5"; "7"].

Definition row_bad_qty : list string :=
  ["01/01/2025"; "INXXXXXXXXXXXXXX"; "12abc"; "999"; "7"].

Definition row_bad_conamt : list string :=
  ["01/01/2025"; "INXXXXXXXXXXXXXX"; "100"; "1.2.3"; "7"].

(** The record of a row, or an empty one when the row is refused. *)
Definition record_or_empty
           (r : result (list string * gmap string string))
  : list string * gmap string string :=
  match r with
  | Ok p => p
  | Return _ => ([], ∅)
  end.

Definition dict_or_empty (r : result (gmap string string))
  : gmap string string :=
  match r with
  | Ok d => d
  | Return _ => ∅
  end.

(** A batch whose second row has no date cell at all. *)
Definition dateless_row_lines : list string :=
  ["CtrPty,Dt"; "INXXXXXXXXXXXXXX,01/02/2024"; "INXXXXXXXXXXXXXX"].

(** The first line of a text. *)
Definition first_line (text : string) : string :=
  List.hd EmptyString (PyStr.splitlines text).

(** ** The download route *)

(** [s.replace(old, '')] for a non-empty [old]: the occurrences of [old]
    are removed from left to right; [skip] counts the characters of the
    occurrence being removed. *)
Fixpoint remove_sub_go (old : string) (skip : nat) (s : string) : string :=
  match s with
  | EmptyString => EmptyString
  | String c s' =>
      match skip with
      | S k => remove_sub_go old k s'
      | O =>
          if String.prefix old s
          then remove_sub_go old (String.length old - 1) s'
          else String c (remove_sub_go old 0 s')
      end
  end.

Definition remove_sub (old s : string) : string := remove_sub_go old 0 s.

(** What the download route answers: a body sent as an attachment, with
    the MIME type when the handler sets it itself; the 404 of
    [send_from_directory]; or an exception that escapes the handler. *)
Inductive Download :=
| Attachment (mimetype : option string) (body : string)
| NotFound
| ServerError.

(** [UploadedFile.query.filter_by(raw_filename=name).first()] *)
Definition find_by_raw_filename (name : string) (rows : list UploadedFile)
  : option UploadedFile :=
  List.find (fun u => bool_decide (raw_filename u = name)) rows.

(** [UploadedFile.query.filter_by(file_id=fid).first()] *)
Definition find_by_file_id (fid : string) (rows : list UploadedFile)
  : option UploadedFile :=
  List.find (fun u => bool_decide (file_id u = fid)) rows.

(** The dictionary of folders of the fallback. *)
Definition folder_path (folder : string) : option string :=
  if bool_decide (folder = "csv") then Some CSV_FOLDER
  else if bool_decide (folder = "reconverted") then Some RECONVERTED_FOLDER
  else None.

(** [send_from_directory(directory, filename, as_attachment=True)] for a
    file name without a slash, as the route delivers it; a directory of
    [None] raises. *)
Definition send_from_directory (directory : option string)
           (filename : string) (w : World) : Download :=
  match directory with
  | None => ServerError
  | Some dir =>
      match files w !! path_join dir filename with
      | Some body => Attachment None body
      | None => NotFound
      end
  end.

(** [download_file]: the database first, then the folders. The queries are
    not guarded: with the database down ([db_ok = false]) they raise. *)
Definition download_file (db_ok : bool) (folder filename : string)
           (w : World) : Download :=
  let fallback := send_from_directory (folder_path folder) filename w in
  if bool_decide (folder = "reconverted") then
    if db_ok then
      match find_by_raw_filename filename (db_uploaded w) with
      | Some db_file => Attachment (Some "text/plain") (raw_content db_file)
      | None => fallback
      end
    else ServerError
  else if bool_decide (folder = "csv") then
    if db_ok then
      match find_by_file_id (remove_sub ".csv" filename) (db_uploaded w) with
      | Some db_file => Attachment (Some "text/csv") (csv_content db_file)
      | None => fallback
      end
    else ServerError
  else fallback.

(** [c in s] for a character. *)
Fixpoint has_char (c : ascii) (s : string) : bool :=
  match s with
  | EmptyString => false
  | String a s' => Ascii.eqb a c || has_char c s'
  end.

(** The row of the table that an accepted request adds. *)
Definition uploaded_row (file : Upload) (hash file_id name raw : string)
  : UploadedFile :=
  mkUploadedFile file_id (upload_filename file) (upload_content file) raw
                 name hash.

(** The id a request is given, rendered as in the file name. *)
Definition file_id_of (env : Env) (w : World) : string :=
  PyStr.zfill 5
    (PyStr.str_int
       (get_next_file_id (db_counter_ok env) (now_alloc env) w).1).


Definition env_counter_down : Env := mkEnv nov_3 nov_3 true false true.

Definition other_file : Upload :=
  mkUpload "other.csv" (csv_text (two_dates_lines "01/02/2024" "01-02-2024")).

Definition dateless_file : Upload :=
  mkUpload "dateless.csv"
           (csv_text ["CtrPty,Qty"; "INXXXXXXXXXXXXXX,100"]).

(** The lines of a body, or none when a row is refused. *)
Definition lines_or_empty (r : result (list string)) : list string :=
  match r with
  | Ok lines => lines
  | Return _ => []
  end.

(** * Properties *)

(** ** Strings and the rendering of dates *)

Lemma string_length_app (s t : string) :
  String.length (s +:+ t) = String.length s + String.length t.
Proof. induction s as [|c s IH]; simpl; [done | by rewrite IH]. Qed.

Lemma string_app_inj_length (s1 s2 t1 t2 : string) :
  String.length s1 = String.length s2 →
  s1 +:+ t1 = s2 +:+ t2 → s1 = s2 ∧ t1 = t2.
Proof.
  revert s2. induction s1 as [|c s1 IH]; intros [|c2 s2] Hlen Heq;
    simpl in *; try discriminate.
  - done.
  - injection Heq as -> Heq. injection Hlen as Hlen.
    destruct (IH s2 Hlen Heq) as [-> ->]. done.
Qed.

Lemma pad2_table : forallb (pad_decodes 2) (seqZ 0 100) = true.
Proof. vm_compute. reflexivity. Qed.

Lemma pad4_table : forallb (pad_decodes 4) (seqZ 0 10000) = true.
Proof. vm_compute. reflexivity. Qed.

Lemma pad_decodes_spec (width : nat) (n : Z) :
  pad_decodes width n = true →
  String.length (pad width n) = width ∧ Ref.digits_val 0 (pad width n) = n.
Proof.
  unfold pad_decodes. rewrite andb_true_iff, !bool_decide_eq_true. done.
Qed.

Lemma pad2_spec (n : Z) :
  (0 ≤ n < 100)%Z →
  String.length (pad 2 n) = 2 ∧ Ref.digits_val 0 (pad 2 n) = n.
Proof.
  intros Hn. apply pad_decodes_spec.
  apply (proj1 (forallb_forall _ _) pad2_table).
  apply list_elem_of_In, elem_of_seqZ. lia.
Qed.

Lemma pad4_spec (n : Z) :
  (0 ≤ n < 10000)%Z →
  String.length (pad 4 n) = 4 ∧ Ref.digits_val 0 (pad 4 n) = n.
Proof.
  intros Hn. apply pad_decodes_spec.
  apply (proj1 (forallb_forall _ _) pad4_table).
  apply list_elem_of_In, elem_of_seqZ. lia.
Qed.

Lemma pad_inj (width : nat) (n m : Z) :
  Ref.digits_val 0 (pad width n) = n →
  Ref.digits_val 0 (pad width m) = m →
  pad width n = pad width m → n = m.
Proof. intros Hn Hm Heq. rewrite <- Hn, <- Hm, Heq. done. Qed.

(** For dates of the calendar the day key [%Y-%m-%d] identifies the day. *)
Lemma strftime_Ymd_inj (d1 d2 : date) :
  date_in_range d1 → date_in_range d2 →
  strftime_Ymd d1 = strftime_Ymd d2 → d1 = d2.
Proof.
  destruct d1 as [y1 m1 a1], d2 as [y2 m2 a2].
  unfold date_in_range, strftime_Ymd; simpl.
  intros (Hy1 & Hm1 & Ha1) (Hy2 & Hm2 & Ha2) Heq.
  destruct (pad4_spec y1) as [Ly1 Dy1]; [lia|].
  destruct (pad4_spec y2) as [Ly2 Dy2]; [lia|].
  destruct (pad2_spec m1) as [Lm1 Dm1]; [lia|].
  destruct (pad2_spec m2) as [Lm2 Dm2]; [lia|].
  destruct (pad2_spec a1) as [La1 Da1]; [lia|].
  destruct (pad2_spec a2) as [La2 Da2]; [lia|].
  apply string_app_inj_length in Heq as [Hy Heq]; [|congruence].
  apply (string_app_inj_length "-" "-") in Heq as [_ Heq]; [|done].
  apply string_app_inj_length in Heq as [Hm Heq]; [|congruence].
  apply (string_app_inj_length "-" "-") in Heq as [_ Ha]; [|done].
  f_equal; eauto using pad_inj.
Qed.

(** The same for the format [%d%m%Y], which always has eight characters. *)
Lemma strftime_dmY_length (d : date) :
  date_in_range d → String.length (strftime_dmY d) = 8.
Proof.
  destruct d as [y m a]. unfold date_in_range, strftime_dmY; simpl.
  intros (Hy & Hm & Ha).
  destruct (pad4_spec y) as [Ly _]; [lia|].
  destruct (pad2_spec m) as [Lm _]; [lia|].
  destruct (pad2_spec a) as [La _]; [lia|].
  rewrite !string_length_app, Ly, Lm, La. done.
Qed.

Lemma strftime_dmY_inj (d1 d2 : date) :
  date_in_range d1 → date_in_range d2 →
  strftime_dmY d1 = strftime_dmY d2 → d1 = d2.
Proof.
  destruct d1 as [y1 m1 a1], d2 as [y2 m2 a2].
  unfold date_in_range, strftime_dmY; simpl.
  intros (Hy1 & Hm1 & Ha1) (Hy2 & Hm2 & Ha2) Heq.
  destruct (pad4_spec y1) as [Ly1 Dy1]; [lia|].
  destruct (pad4_spec y2) as [Ly2 Dy2]; [lia|].
  destruct (pad2_spec m1) as [Lm1 Dm1]; [lia|].
  destruct (pad2_spec m2) as [Lm2 Dm2]; [lia|].
  destruct (pad2_spec a1) as [La1 Da1]; [lia|].
  destruct (pad2_spec a2) as [La2 Da2]; [lia|].
  apply string_app_inj_length in Heq as [Ha Heq]; [|congruence].
  apply string_app_inj_length in Heq as [Hm Hy]; [|congruence].
  f_equal; eauto using pad_inj.
Qed.

Lemma string_app_cons (c : ascii) (s t : string) :
  String c s +:+ t = String c (s +:+ t).
Proof. reflexivity. Qed.

Lemma string_app_nil_r (s : string) : s +:+ EmptyString = s.
Proof.
  induction s as [|c s IH]; [done|]. by rewrite string_app_cons, IH.
Qed.

Lemma string_app_assoc (s t u : string) : (s +:+ t) +:+ u = s +:+ t +:+ u.
Proof.
  induction s as [|c s IH]; [done|]. by rewrite !string_app_cons, IH.
Qed.

Lemma take_length (n : nat) (s : string) :
  String.length (PyStr.take n s) = n `min` String.length s.
Proof.
  revert s. induction n as [|n IH]; intros [|c s]; simpl; try done.
  by rewrite IH.
Qed.

Lemma drop_length (n : nat) (s : string) :
  String.length (PyStr.drop n s) = String.length s - n.
Proof.
  revert s. induction n as [|n IH]; intros [|c s]; simpl; try done.
Qed.

Lemma take_drop (n : nat) (s : string) :
  PyStr.take n s +:+ PyStr.drop n s = s.
Proof.
  revert s. induction n as [|n IH]; intros [|c s]; simpl; try done.
  by rewrite string_app_cons, IH.
Qed.

Lemma join_empty_cons (x : string) (l : list string) :
  PyStr.join EmptyString (x :: l) = x +:+ PyStr.join EmptyString l.
Proof.
  unfold PyStr.join. destruct l as [|y l].
  - cbn. by rewrite string_app_nil_r.
  - done.
Qed.

Lemma startswith_IN (c : string) :
  PyStr.startswith "IN" c = true ↔ ∃ rest, c = String "I" (String "N" rest).
Proof.
  unfold PyStr.startswith. rewrite String.prefix_correct. split.
  - destruct c as [|a [|b c]]; simpl; try done.
    intros H. destruct c; simpl in H; injection H as -> ->; eauto.
  - intros [rest ->]. simpl. by destruct rest.
Qed.

(** Widths of padded numbers. *)
Lemma zeros_length (n : nat) : String.length (PyStr.zeros n) = n.
Proof. induction n as [|n IH]; simpl; [done | by rewrite IH]. Qed.

Lemma zfill_length (width : nat) (s : string) :
  String.length (PyStr.zfill width s) = width `max` String.length s.
Proof.
  unfold PyStr.zfill.
  destruct (Nat.leb_spec width (String.length s)) as [Hle|Hlt]; [lia|].
  destruct s as [|c s]; simpl in *.
  - rewrite zeros_length. lia.
  - destruct (Ascii.eqb c "+" || Ascii.eqb c "-"); simpl;
      rewrite string_length_app, zeros_length; simpl; lia.
Qed.

Lemma digits_fuel_length (fuel k : nat) (n : Z) (acc : string) :
  (0 ≤ n < 10 ^ Z.of_nat k)%Z → 1 ≤ k →
  String.length (PyStr.digits_fuel fuel n acc) ≤ String.length acc + k.
Proof.
  revert k n acc. induction fuel as [|fuel IH]; intros k n acc Hn Hk; simpl.
  - lia.
  - destruct (Z.eqb_spec (n / 10) 0) as [Hz|Hnz]; simpl; [lia|].
    destruct k as [|[|k]]; [lia| |].
    + exfalso. apply Hnz. apply Z.div_small. simpl in Hn. lia.
    + specialize (IH (S k) (n / 10)%Z
                     (String (PyStr.digit_char (n mod 10)) acc)).
      simpl String.length in IH.
      assert (0 ≤ n / 10 < 10 ^ Z.of_nat (S k))%Z; [|lia].
      split; [apply Z.div_pos; lia|].
      apply Z.div_lt_upper_bound; [lia|].
      replace (Z.of_nat (S (S k))) with (Z.succ (Z.of_nat (S k))) in Hn
        by lia.
      rewrite Z.pow_succ_r in Hn by lia. lia.
Qed.

Lemma pad_length (width : nat) (n : Z) :
  (0 ≤ n < 10 ^ Z.of_nat width)%Z → 1 ≤ width →
  String.length (pad width n) = width.
Proof.
  intros Hn Hw. unfold pad. rewrite zfill_length.
  unfold PyStr.str_int. destruct (Z.ltb_spec n 0) as [Hneg|_]; [lia|].
  unfold PyStr.str_nonneg.
  pose proof (digits_fuel_length (S (Z.to_nat (Z.log2 n))) width n
                EmptyString Hn Hw) as Hlen.
  change (String.length EmptyString) with 0 in Hlen. lia.
Qed.

(** ** Sequence allocator *)

(** One allocation, on either backend: the id follows from what the backend
    remembers, and the backend then remembers that id for the day. *)
Lemma get_next_file_id_view (db_ok : bool) (now : date) (w : World) :
  (get_next_file_id db_ok now w).1 = next_id (counter_view db_ok w) now
  ∧ counter_view db_ok (get_next_file_id db_ok now w).2
    = Some ((get_next_file_id db_ok now w).1, Some (strftime_Ymd now)).
Proof.
  unfold get_next_file_id, get_file_counter, counter_view, next_id.
  destruct db_ok.
  - destruct (db_counter w) as [[n d]|]; simpl; [|done].
    destruct (decide (d ≠ strftime_Ymd now)) as [Hne|Heq]; simpl.
    + rewrite decide_False by congruence. done.
    + apply dec_stable in Heq. subst d. rewrite decide_True by done. done.
  - destruct (counter_file w) as [[n d]|]; simpl; [|done].
    destruct (decide (d ≠ Some (strftime_Ymd now))) as [Hne|Heq]; simpl.
    + rewrite decide_False by congruence. done.
    + apply dec_stable in Heq. subst d. rewrite decide_True by done. done.
Qed.

Lemma allocate_all_cons (db_ok : bool) (now : date) (rest : list date)
      (w : World) :
  allocate_all db_ok (now :: rest) w
  = ((get_next_file_id db_ok now w).1
       :: (allocate_all db_ok rest (get_next_file_id db_ok now w).2).1,
     (allocate_all db_ok rest (get_next_file_id db_ok now w).2).2).
Proof.
  simpl. destruct (get_next_file_id db_ok now w) as [i w1]. simpl.
  destruct (allocate_all db_ok rest w1) as [ids w2]. done.
Qed.

Lemma allocate_all_length (db_ok : bool) (clock : list date) (w : World) :
  length (allocate_all db_ok clock w).1 = length clock.
Proof.
  revert w. induction clock as [|now rest IH]; intros w; [done|].
  rewrite allocate_all_cons. simpl. by rewrite IH.
Qed.

Lemma allocate_all_head (db_ok : bool) (now : date) (rest : list date)
      (w : World) :
  (allocate_all db_ok (now :: rest) w).1 !! 0
  = Some (next_id (counter_view db_ok w) now).
Proof.
  rewrite allocate_all_cons. simpl.
  by rewrite (proj1 (get_next_file_id_view db_ok now w)).
Qed.

(** Two allocations in a row: the second id is the first plus one when the
    day key is the same, and 1 otherwise. *)
Lemma allocate_all_step (db_ok : bool) (clock : list date) (w : World)
      (i : nat) (d1 d2 : date) :
  clock !! i = Some d1 → clock !! S i = Some d2 →
  ∃ n1 n2,
    (allocate_all db_ok clock w).1 !! i = Some n1
    ∧ (allocate_all db_ok clock w).1 !! S i = Some n2
    ∧ n2 = if decide (strftime_Ymd d1 = strftime_Ymd d2)
           then (n1 + 1)%Z else 1%Z.
Proof.
  revert w i. induction clock as [|now rest IH]; intros w i H1 H2; [done|].
  rewrite allocate_all_cons.
  destruct (get_next_file_id_view db_ok now w) as [_ Hview].
  destruct i as [|i]; simpl in *.
  - injection H1 as ->.
    destruct rest as [|d rest']; [done|]. injection H2 as ->.
    eexists _, _. split; [done|].
    rewrite allocate_all_head. split; [done|].
    rewrite Hview. unfold next_id.
    destruct (decide (strftime_Ymd d1 = strftime_Ymd d2)) as [->|Hne].
    + by rewrite decide_True.
    + rewrite decide_False; [done | congruence].
  - apply IH; done.
Qed.

(** C8: in every run of allocations on one backend, primary or fallback,
    an allocation on the same calendar day as the one before it returns the
    previous id plus exactly one, an allocation on another calendar day
    returns 1 whatever the previous id was, and the first allocation ever
    (nothing remembered yet) returns 1. *)
Theorem allocator_daily_sequence (db_ok : bool) (clock : list date)
        (w : World) :
  Forall date_in_range clock →
  let ids := (allocate_all db_ok clock w).1 in
  length ids = length clock
  ∧ (counter_view db_ok w = None → ∀ now, clock !! 0 = Some now →
     ids !! 0 = Some 1%Z)
  ∧ (∀ i d1 d2, clock !! i = Some d1 → clock !! S i = Some d2 →
     ∃ n1 n2, ids !! i = Some n1 ∧ ids !! S i = Some n2
              ∧ n2 = if decide (d1 = d2) then (n1 + 1)%Z else 1%Z).
Proof.
  intros Hrange ids. subst ids. split; [apply allocate_all_length|]. split.
  - intros Hnone now Hnow. destruct clock as [|d rest]; [done|].
    rewrite allocate_all_head, Hnone. done.
  - intros i d1 d2 H1 H2.
    destruct (allocate_all_step db_ok clock w i d1 d2 H1 H2)
      as (n1 & n2 & Hn1 & Hn2 & Hstep).
    exists n1, n2. split; [done|]. split; [done|].
    rewrite Forall_lookup in Hrange.
    destruct (decide (d1 = d2)) as [->|Hne].
    + by rewrite decide_True in Hstep.
    + rewrite decide_False in Hstep; [done|].
      intros Heq. apply Hne. eapply strftime_Ymd_inj; eauto.
Qed.

Lemma allocator_daily_sequence_witness :
  Forall date_in_range clock_two_days
  ∧ (allocate_all true clock_two_days empty_world).1
    = [1; 2; 3; 1; 2]%Z
  ∧ (allocate_all false clock_two_days empty_world).1
    = [1; 2; 3; 1; 2]%Z
  ∧ let ids := (allocate_all false clock_two_days empty_world).1 in
    length ids = length clock_two_days
    ∧ (counter_view false empty_world = None →
       ∀ now, clock_two_days !! 0 = Some now → ids !! 0 = Some 1%Z)
    ∧ (∀ i d1 d2, clock_two_days !! i = Some d1 →
       clock_two_days !! S i = Some d2 →
       ∃ n1 n2, ids !! i = Some n1 ∧ ids !! S i = Some n2
                ∧ n2 = if decide (d1 = d2) then (n1 + 1)%Z else 1%Z).
Proof.
  assert (Hrange : Forall date_in_range clock_two_days).
  { repeat constructor; simpl; lia. }
  split; [exact Hrange|]. split; [reflexivity|]. split; [reflexivity|].
  exact (allocator_daily_sequence false clock_two_days empty_world Hrange).
Defined.

(** ** The handler: how a request ends *)

Section Handler.

Variable sha256_hexdigest : string → string.
Variable csv_reader : list string → list (list string).
Variable parse_dayfirst : string → option date.
Variable float_fixed : nat → string → option string.

Abbreviation upload :=
  (upload_csv sha256_hexdigest csv_reader parse_dayfirst float_fixed).
Abbreviation body := (build_body parse_dayfirst float_fixed).
Abbreviation dates := (validate_dates parse_dayfirst).
Abbreviation duplicate := (duplicate_of sha256_hexdigest).
Abbreviation rows := (rows_of csv_reader).
Abbreviation headers := (headers_of csv_reader).
Abbreviation data_rows := (data_rows_of csv_reader).
Abbreviation created := (created_world sha256_hexdigest csv_reader).

(** The handler, phase by phase. *)
Lemma upload_csv_phases (env : Env) (file : Upload) (w : World) :
  upload env (Some file) w =
  if negb (file_given file) then (NoFileUploaded, w)
  else
  match duplicate env file w with
  | Some existing => (FileAlreadyExists (raw_filename existing), w)
  | None =>
      if bool_decide (length (rows file) < 2) then (CsvFormatInvalid, w)
      else
        match dates (headers file) (data_rows file) with
        | Return r => (r, w)
        | Ok _ =>
            match body (headers file) (data_rows file) with
            | Return r =>
                (r, (get_next_file_id (db_counter_ok env)
                       (now_alloc env) w).2)
            | Ok lines =>
                (RawFileCreated (created env file lines w).1,
                 (created env file lines w).2)
            end
        end
  end.
Proof.
  unfold upload_csv, duplicate_of, created_world, rows_of, headers_of,
    data_rows_of, rows_of.
  repeat case_match; simplify_eq/=; try done.
Qed.

(** A part with an empty file name is no file: the request is answered at
    once, before the lookup, and nothing changes. *)
Lemma upload_csv_no_file (env : Env) (file : Upload) (w : World) :
  file_given file = false →
  upload env (Some file) w = (NoFileUploaded, w).
Proof. intros Hg. by rewrite upload_csv_phases, Hg. Qed.

Lemma first_row_date_error (hs row : list string) (r : Response) :
  first_row_date parse_dayfirst hs row = Return r →
  date_phase_error r = true.
Proof.
  unfold first_row_date. intros H. repeat case_match; simplify_eq; done.
Qed.

Lemma check_dates_error (hs : list string) (fd : string)
      (rs : list (list string)) (r : Response) :
  check_dates parse_dayfirst hs fd rs = Return r →
  date_phase_error r = true.
Proof.
  induction rs as [|row rest IH]; simpl; [done|].
  intros H. repeat case_match; simplify_eq; auto.
Qed.

Lemma validate_dates_error (hs : list string) (rs : list (list string))
      (r : Response) :
  dates hs rs = Return r → date_phase_error r = true.
Proof.
  unfold validate_dates.
  destruct (first_row_date parse_dayfirst hs (List.hd [] rs))
    as [fd|r1] eqn:Hfirst; simpl.
  - destruct (check_dates parse_dayfirst hs fd rs) as [[]|r2] eqn:Hrest;
      simpl; [done|].
    intros [= <-]. eauto using check_dates_error.
  - intros [= <-]. eauto using first_row_date_error.
Qed.

Lemma canonical_record_error (hs row : list string) (r : Response) :
  canonical_record parse_dayfirst float_fixed hs row = Return r →
  row_phase_error r = true.
Proof.
  unfold canonical_record, normalize_dt, format_amount. intros H.
  repeat (case_match; simplify_eq/=; try done).
Qed.

Lemma process_row_error (hs row : list string) (r : Response) :
  process_row parse_dayfirst float_fixed hs row = Return r →
  row_phase_error r = true.
Proof.
  unfold process_row.
  destruct (canonical_record parse_dayfirst float_fixed hs row)
    as [[order merged]|r1] eqn:Hrec; simpl; [done|].
  intros [= <-]. eauto using canonical_record_error.
Qed.

Lemma build_body_error (hs : list string) (rs : list (list string))
      (r : Response) :
  body hs rs = Return r → row_phase_error r = true.
Proof.
  induction rs as [|row rest IH]; simpl; [done|].
  destruct (process_row parse_dayfirst float_fixed hs row) as [line|r1]
    eqn:Hrow.
  - destruct (body hs rest) as [lines|r2]; [done|].
    intros [= <-]. auto.
  - intros [= <-]. eauto using process_row_error.
Qed.

(** *** Duplicates *)

Lemma get_next_file_id_uploaded (db_ok : bool) (now : date) (w : World) :
  db_uploaded (get_next_file_id db_ok now w).2 = db_uploaded w
  ∧ files (get_next_file_id db_ok now w).2 = files w.
Proof.
  unfold get_next_file_id, get_file_counter.
  repeat case_match; simplify_eq/=; done.
Qed.

Lemma find_by_hash_app (h : string) (l : list UploadedFile)
      (u : UploadedFile) :
  find_by_hash h (l ++ [u]) =
  match find_by_hash h l with
  | Some x => Some x
  | None => if bool_decide (file_hash u = h) then Some u else None
  end.
Proof.
  unfold find_by_hash. induction l as [|x l IH]; simpl; [done|].
  by destruct (bool_decide (file_hash x = h)).
Qed.

(** A request whose content has a row in the table ends at the lookup. *)
Lemma upload_csv_duplicate (env : Env) (file : Upload) (w : World)
      (prev : UploadedFile) :
  file_given file = true →
  duplicate env file w = Some prev →
  upload env (Some file) w = (FileAlreadyExists (raw_filename prev), w).
Proof. intros Hg H. rewrite upload_csv_phases, Hg, H. done. Qed.

(** C3: when a request produced an artifact and recorded it, a second
    request that uploads a file (a part with a file name) with the same
    content and whose lookup reaches the table is answered
    from the table before anything is parsed or allocated: it names an
    artifact recorded for that content and leaves the whole state, the
    sequence allocator included, as it was. When the first request had itself
    looked the content up, the artifact named is the one it produced, stored
    unchanged. *)
Theorem duplicate_upload_short_circuits (env1 env2 : Env) (f1 f2 : Upload)
        (w w1 : World) (name : string) :
  upload_content f1 = upload_content f2 →
  file_given f2 = true →
  db_save_ok env1 = true →
  db_lookup_ok env2 = true →
  upload env1 (Some f1) w = (RawFileCreated name, w1) →
  ∃ prev,
    prev ∈ db_uploaded w1
    ∧ file_hash prev = sha256_hexdigest (upload_content f2)
    ∧ upload env2 (Some f2) w1 = (FileAlreadyExists (raw_filename prev), w1)
    ∧ (∀ b, counter_view b (upload env2 (Some f2) w1).2 = counter_view b w1)
    ∧ (db_lookup_ok env1 = true →
       raw_filename prev = name
       ∧ files w1 !! path_join RECONVERTED_FOLDER name
         = Some (raw_content prev)).
Proof.
  intros Hcontent Hgiven Hsave Hlookup Hfirst.
  rewrite upload_csv_phases in Hfirst.
  destruct (file_given f1); [|done]. cbn [negb] in Hfirst.
  destruct (duplicate env1 f1 w) as [old|] eqn:Hdup; [done|].
  destruct (bool_decide (length (rows f1) < 2)); [done|].
  destruct (dates (headers f1) (data_rows f1)) as [fd|r] eqn:Hdates.
  2:{ apply validate_dates_error in Hdates. by simplify_eq. }
  destruct (body (headers f1) (data_rows f1)) as [lines|r] eqn:Hbody.
  2:{ apply build_body_error in Hbody. by simplify_eq. }
  injection Hfirst as Hname Hw1.
  unfold created_world in Hname, Hw1. rewrite Hsave in Hw1.
  cbn [fst snd] in Hname, Hw1.
  set (alloc := get_next_file_id (db_counter_ok env1) (now_alloc env1) w)
    in *.
  set (u := mkUploadedFile _ _ _ _ _ _) in Hw1.
  assert (Htable : db_uploaded w1 = db_uploaded w ++ [u]).
  { subst w1. simpl. f_equal.
    apply (get_next_file_id_uploaded (db_counter_ok env1) (now_alloc env1) w). }
  assert (Hfind : ∃ prev,
             find_by_hash (sha256_hexdigest (upload_content f2))
                          (db_uploaded w1) = Some prev
             ∧ (db_lookup_ok env1 = true → prev = u)).
  { rewrite Htable, find_by_hash_app, <- Hcontent.
    destruct (find_by_hash _ (db_uploaded w)) as [x|] eqn:Hx.
    - exists x. split; [done|]. intros Hl.
      unfold duplicate_of in Hdup. rewrite Hl in Hdup. congruence.
    - exists u. subst u. simpl. rewrite bool_decide_eq_true_2 by done.
      done. }
  destruct Hfind as (prev & Hprev & Hnew).
  assert (Hsecond : upload env2 (Some f2) w1
                    = (FileAlreadyExists (raw_filename prev), w1)).
  { apply upload_csv_duplicate; [done|].
    unfold duplicate_of. by rewrite Hlookup. }
  exists prev. split; [|split; [|split; [|split]]].
  - unfold find_by_hash in Hprev. apply find_some in Hprev as [Hin _].
    by apply list_elem_of_In.
  - unfold find_by_hash in Hprev. apply find_some in Hprev as [_ Hh].
    by apply bool_decide_eq_true_1 in Hh.
  - exact Hsecond.
  - intros b. by rewrite Hsecond.
  - intros Hl. rewrite (Hnew Hl). subst u. simpl. split; [done|].
    subst w1 name. simpl. apply lookup_insert_eq.
Qed.

(** *** Too few rows, and rows of another width *)

Lemma row_dict_of_clip (hs row : list string) :
  row_dict_of hs row
  = row_dict_of (take (length row) hs) (take (length hs) row).
Proof.
  unfold row_dict_of. f_equal. symmetry.
  apply zip_with_take_both'; lia.
Qed.

(** C4 (amended): a request fails with FormatError exactly when it uploads
    a file (a part with a file name), is not answered from the duplicate
    table and its input has fewer than two rows (no header, or a header
    with no data); the state is then untouched. The
    width of a data row is never compared with the header: a row is paired
    with the header position by position, cells beyond the header and
    columns beyond the row dropping out. *)
Theorem format_error_iff_too_few_rows (env : Env) (file : Upload)
        (w : World) :
  (error_class (upload env (Some file) w).1 = Some FormatError
   ↔ file_given file = true ∧ duplicate env file w = None
     ∧ length (rows file) < 2)
  ∧ (error_class (upload env (Some file) w).1 = Some FormatError →
     upload env (Some file) w = (CsvFormatInvalid, w))
  ∧ (∀ hs row,
       row_dict_of hs row
       = row_dict_of (take (length row) hs) (take (length hs) row)).
Proof.
  rewrite upload_csv_phases.
  split; [|split; [|apply row_dict_of_clip]].
  - destruct (file_given file); cbn [negb].
    2:{ split; [done | by intros [? _]]. }
    destruct (duplicate env file w) as [old|]; simpl.
    { split; [done | by intros (_ & ? & _)]. }
    destruct (bool_decide_reflect (length (rows file) < 2)) as [Hlt|Hge];
      simpl.
    { done. }
    split; [|intros (_ & _ & ?); lia].
    destruct (dates (headers file) (data_rows file)) as [fd|r] eqn:Hdates;
      simpl.
    + destruct (body (headers file) (data_rows file)) as [lines|r]
        eqn:Hbody; simpl; [done|].
      apply build_body_error in Hbody. by destruct r.
    + apply validate_dates_error in Hdates. by destruct r.
  - destruct (file_given file); cbn [negb]; [|done].
    destruct (duplicate env file w) as [old|]; simpl; [done|].
    destruct (bool_decide (length (rows file) < 2)); simpl; [done|].
    destruct (dates (headers file) (data_rows file)) as [fd|r] eqn:Hdates;
      simpl.
    + destruct (body (headers file) (data_rows file)) as [lines|r]
        eqn:Hbody; simpl; [done|].
      apply build_body_error in Hbody. by destruct r.
    + apply validate_dates_error in Hdates. by destruct r.
Qed.

(** *** What an error leaves behind *)

(** C1 (amended): a request that ends in a validation error writes no file
    and no row of the duplicate table. When the error is found before the
    allocation (too few rows, a missing, invalid or differing date) the
    state is untouched; when it is found in the body loop (counter-party
    identifier, quantity, amount) the allocation has already happened, and
    the state is the one the allocator left, with its id consumed. *)
Theorem error_leaves_no_artifact (env : Env) (file : Upload) (w : World) :
  is_Some (error_class (upload env (Some file) w).1) →
  let r := (upload env (Some file) w).1 in
  let w' := (upload env (Some file) w).2 in
  let alloc := get_next_file_id (db_counter_ok env) (now_alloc env) w in
  files w' = files w
  ∧ db_uploaded w' = db_uploaded w
  ∧ ((w' = w
      ∧ (r = CsvFormatInvalid
         ∨ dates (headers file) (data_rows file) = Return r))
     ∨ (w' = alloc.2
        ∧ (∃ file_date,
             dates (headers file) (data_rows file) = Ok file_date)
        ∧ body (headers file) (data_rows file) = Return r
        ∧ counter_view (db_counter_ok env) w'
          = Some (alloc.1, Some (strftime_Ymd (now_alloc env)))
        ∧ alloc.1
          = next_id (counter_view (db_counter_ok env) w) (now_alloc env))).
Proof.
  rewrite upload_csv_phases.
  destruct (file_given file); cbn [negb].
  2:{ by intros [? ?]. }
  destruct (duplicate env file w) as [old|]; simpl.
  { by intros [? ?]. }
  destruct (bool_decide (length (rows file) < 2)); simpl.
  { intros _. split; [done|]. split; [done|]. left. auto. }
  destruct (dates (headers file) (data_rows file)) as [fd|r] eqn:Hdates;
    simpl.
  - destruct (body (headers file) (data_rows file)) as [lines|r] eqn:Hbody;
      simpl.
    { by intros [? ?]. }
    intros _.
    destruct (get_next_file_id_uploaded (db_counter_ok env) (now_alloc env) w)
      as [Hup Hfiles].
    destruct (get_next_file_id_view (db_counter_ok env) (now_alloc env) w)
      as [Hid Hview].
    split; [done|]. split; [done|]. right.
    split; [done|]. split; [by exists fd|]. auto.
  - intros _. split; [done|]. split; [done|]. left. auto.
Qed.

(** *** The envelope *)

Lemma build_body_length (hs : list string) (rs : list (list string))
      (lines : list string) :
  body hs rs = Ok lines → length lines = length rs.
Proof.
  revert lines. induction rs as [|row rest IH]; simpl; intros lines H.
  - by simplify_eq.
  - destruct (process_row parse_dayfirst float_fixed hs row); [|done].
    destruct (body hs rest) as [ls|]; [|done].
    simplify_eq. simpl. by rewrite (IH ls).
Qed.

(** C2 (amended): for every accepted batch the header line is the constant
    prefix, one space, the row count zero-padded to six digits, the
    sequence id zero-padded to five digits and the eight-digit [ddmmyyyy]
    date of the creation of the artifact, the same date the file name
    carries; the issue date read from the first row is validated but is not
    what the header shows. *)
Theorem header_carries_creation_date (env : Env) (file : Upload)
        (w w' : World) (name : string) :
  upload env (Some file) w = (RawFileCreated name, w') →
  let id := (get_next_file_id (db_counter_ok env) (now_alloc env) w).1 in
  let n := length (data_rows file) in
  let row_count := PyStr.zfill 6 (PyStr.str_int (Z.of_nat n)) in
  let file_id := PyStr.zfill 5 (PyStr.str_int id) in
  let created_on := strftime_dmY (now_name env) in
  ∃ issue_date lines,
    dates (headers file) (data_rows file) = Ok issue_date
    ∧ body (headers file) (data_rows file) = Ok lines
    ∧ length lines = n
    ∧ files w' !! path_join RECONVERTED_FOLDER name
      = Some (PyStr.join newline
                ((RAW_HEADER_PREFIX +:+ " " +:+ row_count +:+ file_id
                    +:+ created_on) :: lines ++ [EmptyString]))
    ∧ name = "18" +:+ Bnfcry +:+ "." +:+ created_on +:+ "." +:+ file_id
    ∧ ((Z.of_nat n < 1000000)%Z → String.length row_count = 6)
    ∧ ((0 ≤ id < 100000)%Z → String.length file_id = 5)
    ∧ (date_in_range (now_name env) → String.length created_on = 8).
Proof.
  intros Hup. rewrite upload_csv_phases in Hup.
  destruct (file_given file); [|done]. cbn [negb] in Hup.
  destruct (duplicate env file w) as [old|]; [done|].
  destruct (bool_decide (length (rows file) < 2)); [done|].
  destruct (dates (headers file) (data_rows file)) as [fd|r] eqn:Hdates.
  2:{ apply validate_dates_error in Hdates. by simplify_eq. }
  destruct (body (headers file) (data_rows file)) as [lines|r] eqn:Hbody.
  2:{ apply build_body_error in Hbody. by simplify_eq. }
  injection Hup as Hname Hw'. unfold created_world in Hname, Hw'.
  cbn [fst snd] in Hname, Hw'. cbv zeta.
  exists fd, lines.
  split; [done|]. split; [done|].
  split; [by eapply build_body_length|].
  split; [|split; [|split; [|split]]].
  - subst w' name. simpl. apply lookup_insert_eq.
  - by subst name.
  - intros Hn. apply (pad_length 6); [simpl; lia | lia].
  - intros Hid. apply (pad_length 5); [simpl; lia | lia].
  - apply strftime_dmY_length.
Qed.

(** *** Dates of a batch *)

Lemma check_dates_ok_iff (hs : list string) (fd : string)
      (rs : list (list string)) :
  check_dates parse_dayfirst hs fd rs = Ok ()
  ↔ Forall (date_agrees parse_dayfirst hs fd) rs.
Proof.
  induction rs as [|row rest IH]; simpl.
  - split; [constructor | done].
  - rewrite Forall_cons, <- IH. unfold date_agrees.
    destruct (row_dict_of hs row !! "Dt") as [v|]; [|by split; [intros ?; split | intros [_ ?]]].
    destruct (nonempty v); [|by split; [intros ?; split | intros [_ ?]]].
    destruct (parse_dayfirst v) as [d|].
    + destruct (decide (strftime_dmY d ≠ fd)) as [Hne|Heq].
      * split; [done|]. intros [Hd _].
        destruct (Hd eq_refl) as (d' & Hd' & Heq). by simplify_eq.
      * apply dec_stable in Heq.
        split; [by eauto | by intros [_ ?]].
    + split; [done|]. intros [Hd _].
      by destruct (Hd eq_refl) as (d' & Hd' & _).
Qed.

Lemma check_dates_mismatch (hs : list string) (fd dt : string)
      (rs : list (list string)) (fd' : string) :
  check_dates parse_dayfirst hs fd rs = Return (DtMismatch dt fd') →
  fd' = fd ∧ dt ≠ fd
  ∧ ∃ row v d, row ∈ rs ∧ row_dict_of hs row !! "Dt" = Some v
               ∧ parse_dayfirst v = Some d ∧ dt = strftime_dmY d.
Proof.
  induction rs as [|row rest IH]; simpl; [done|].
  intros H.
  assert (Hrest : check_dates parse_dayfirst hs fd rest
                  = Return (DtMismatch dt fd') →
                  fd' = fd ∧ dt ≠ fd
                  ∧ ∃ row0 v d, row0 ∈ row :: rest
                      ∧ row_dict_of hs row0 !! "Dt" = Some v
                      ∧ parse_dayfirst v = Some d ∧ dt = strftime_dmY d).
  { intros Hr. destruct (IH Hr) as (? & ? & row0 & v & d & Hin & ?).
    split; [done|]. split; [done|]. exists row0, v, d.
    split; [by apply list_elem_of_further | done]. }
  destruct (row_dict_of hs row !! "Dt") as [v|] eqn:Hdt; [|by auto].
  destruct (nonempty v); [|by auto].
  destruct (parse_dayfirst v) as [d|] eqn:Hd; [|done].
  destruct (decide (strftime_dmY d ≠ fd)) as [Hne|Heq]; [|by auto].
  simplify_eq. split; [done|]. split; [done|].
  exists row, v, d. split; [apply list_elem_of_here | done].
Qed.

Lemma validate_dates_ok_iff (hs : list string) (rs : list (list string))
      (fd : string) :
  dates hs rs = Ok fd
  ↔ (∃ v d, row_dict_of hs (List.hd [] rs) !! "Dt" = Some v
            ∧ nonempty v = true
            ∧ parse_dayfirst v = Some d ∧ fd = strftime_dmY d)
    ∧ Forall (date_agrees parse_dayfirst hs fd) rs.
Proof.
  unfold validate_dates, first_row_date. rewrite <- check_dates_ok_iff.
  destruct (row_dict_of hs (List.hd [] rs) !! "Dt") as [v|] eqn:Hv; simpl.
  2:{ split; [done | by intros [(? & ? & ? & _) _]]. }
  destruct (nonempty v) eqn:Hne; simpl.
  2:{ split; [done | intros [(? & ? & ? & ? & _) _]; congruence]. }
  destruct (parse_dayfirst v) as [d|] eqn:Hd; simpl.
  2:{ split; [done | intros [(? & ? & ? & ? & ? & _) _]; congruence]. }
  destruct (check_dates parse_dayfirst hs (strftime_dmY d) rs) as [[]|r]
    eqn:Hchk; simpl.
  - split.
    + intros [= <-]. split; [by exists v, d | done].
    + intros [(v' & d' & ? & _ & ? & ->) _]. by simplify_eq.
  - split; [done|]. intros [(v' & d' & ? & _ & ? & ->) Hok].
    simplify_eq. congruence.
Qed.

Lemma validate_dates_mismatch (hs : list string) (rs : list (list string))
      (dt fd : string) :
  dates hs rs = Return (DtMismatch dt fd) →
  dt ≠ fd
  ∧ (∃ v d, row_dict_of hs (List.hd [] rs) !! "Dt" = Some v
            ∧ parse_dayfirst v = Some d ∧ fd = strftime_dmY d)
  ∧ ∃ row v d, row ∈ rs ∧ row_dict_of hs row !! "Dt" = Some v
               ∧ parse_dayfirst v = Some d ∧ dt = strftime_dmY d.
Proof.
  unfold validate_dates, first_row_date.
  destruct (row_dict_of hs (List.hd [] rs) !! "Dt") as [v|] eqn:Hv;
    simpl; [|done].
  destruct (nonempty v); simpl; [|done].
  destruct (parse_dayfirst v) as [d|] eqn:Hd; simpl; [|done].
  destruct (check_dates parse_dayfirst hs (strftime_dmY d) rs) as [[]|r]
    eqn:Hchk; simpl; [done|].
  intros [= ->]. apply check_dates_mismatch in Hchk as (-> & Hne & Hrow).
  split; [done|]. split; [by exists v, d | done].
Qed.

(** *** One row of the body loop *)

Lemma result_bind_ok {A B : Type} (m : result A) (f : A → result B) (b : B) :
  m ≫= f = Ok b → ∃ a, m = Ok a ∧ f a = Ok b.
Proof. destruct m as [a|r]; simpl; [by exists a | done]. Qed.

Lemma normalize_dt_lookup (rd rd' : gmap string string) (k : string) :
  normalize_dt parse_dayfirst rd = Ok rd' → k ≠ "Dt" → rd' !! k = rd !! k.
Proof.
  unfold normalize_dt. intros H Hk.
  repeat case_match; simplify_eq; try done.
  by rewrite lookup_insert_ne.
Qed.

Lemma format_amount_lookup (decimals : nat) (field : string)
      (invalid : string → Response) (rd rd' : gmap string string)
      (k : string) :
  format_amount float_fixed decimals field invalid rd = Ok rd' →
  k ≠ field → rd' !! k = rd !! k.
Proof.
  unfold format_amount. intros H Hk.
  repeat case_match; simplify_eq; try done.
  by rewrite lookup_insert_ne.
Qed.

Lemma format_amount_error (decimals : nat) (field : string)
      (invalid : string → Response) (rd : gmap string string)
      (r : Response) :
  format_amount float_fixed decimals field invalid rd = Return r →
  ∃ v, r = invalid v.
Proof.
  unfold format_amount. intros H.
  repeat case_match; simplify_eq. eauto.
Qed.

Lemma ctrpty_rejected_true (c : string) :
  ctrpty_rejected c = true ↔ c = EmptyString ∨ String.length c ≠ 16.
Proof.
  unfold ctrpty_rejected. rewrite orb_true_iff, bool_decide_eq_true.
  destruct c as [|a c]; simpl.
  - split; [by left | by left].
  - split; (intros [?|?]; [done | by right]).
Qed.

(** The body of the loop, step by step. *)
Lemma canonical_record_steps (hs row : list string) :
  canonical_record parse_dayfirst float_fixed hs row =
  match normalize_dt parse_dayfirst (trimmed_row hs row) with
  | Return r => Return r
  | Ok rd1 =>
      let c := ctrpty_of hs row in
      if ctrpty_rejected c then Return (InvalidCtrPty c)
      else
        match format_amount float_fixed 3 "Qty" InvalidQty
                (classified (<["Xferdt" := get_or_empty rd1 "Dt"]> rd1) c)
        with
        | Return r => Return r
        | Ok rd2 =>
            match format_amount float_fixed 2 "Conamt" InvalidConamt rd2 with
            | Return r => Return r
            | Ok rd3 => Ok (order_of c, merged_of rd3 c)
            end
        end
  end.
Proof.
  unfold canonical_record. fold (trimmed_row hs row).
  destruct (normalize_dt parse_dayfirst (trimmed_row hs row)) as [rd1|r]
    eqn:Hdt; simpl; [|done].
  assert (Hc : get_or_empty (<["Xferdt" := get_or_empty rd1 "Dt"]> rd1)
                 "CtrPty" = ctrpty_of hs row).
  { unfold ctrpty_of, get_or_empty at 1 3.
    rewrite lookup_insert_ne by done.
    by rewrite (normalize_dt_lookup _ _ _ Hdt). }
  rewrite Hc.
  destruct (ctrpty_rejected (ctrpty_of hs row)); [done|].
  unfold classified, order_of, merged_of, tp_of.
  destruct (PyStr.startswith "IN" (ctrpty_of hs row)); simpl;
    (destruct (format_amount float_fixed 3 "Qty" InvalidQty _) as [rd2|r];
     simpl; [|done]);
    by destruct (format_amount float_fixed 2 "Conamt" InvalidConamt rd2).
Qed.

Abbreviation record := (canonical_record parse_dayfirst float_fixed).
Abbreviation row_line := (process_row parse_dayfirst float_fixed).

(** What a row that passes leaves in [merged]. *)
Lemma canonical_record_ok (hs row : list string) (order : list string)
      (merged : gmap string string) :
  record hs row = Ok (order, merged) →
  ∃ rd1 rd3,
    normalize_dt parse_dayfirst (trimmed_row hs row) = Ok rd1
    ∧ ctrpty_rejected (ctrpty_of hs row) = false
    ∧ order = order_of (ctrpty_of hs row)
    ∧ merged = merged_of rd3 (ctrpty_of hs row)
    ∧ ∀ k, k ≠ "Qty" → k ≠ "Conamt" →
           rd3 !! k
           = classified (<["Xferdt" := get_or_empty rd1 "Dt"]> rd1)
                        (ctrpty_of hs row) !! k.
Proof.
  rewrite canonical_record_steps.
  destruct (normalize_dt parse_dayfirst (trimmed_row hs row)) as [rd1|r]
    eqn:Hdt; [|done].
  cbv zeta.
  destruct (ctrpty_rejected (ctrpty_of hs row)) eqn:Hrej; [done|].
  destruct (format_amount float_fixed 3 "Qty" InvalidQty _) as [rd2|r]
    eqn:Hqty; [|done].
  destruct (format_amount float_fixed 2 "Conamt" InvalidConamt rd2)
    as [rd3|r] eqn:Hcon; [|done].
  intros [= <- <-]. exists rd1, rd3.
  split; [done|]. split; [done|]. split; [done|]. split; [done|].
  intros k Hq Hc.
  rewrite (format_amount_lookup _ _ _ _ _ k Hcon) by done.
  by rewrite (format_amount_lookup _ _ _ _ _ k Hqty).
Qed.

Lemma merged_of_lookup_Some (rd : gmap string string) (c k v : string) :
  k ≠ "Tp" → k ≠ "Chqrefno" → rd !! k = Some v →
  merged_of rd c !! k = Some v.
Proof.
  intros Htp Hchq Hk. unfold merged_of.
  rewrite lookup_insert_ne by done.
  apply lookup_union_Some_l. by rewrite lookup_insert_ne.
Qed.

Lemma merged_of_lookup_None (rd : gmap string string) (c k : string) :
  k ≠ "Tp" → k ≠ "Chqrefno" → rd !! k = None →
  CONSTANT_FIELDS !! k = None →
  merged_of rd c !! k = None.
Proof.
  intros Htp Hchq Hk Hconst. unfold merged_of.
  rewrite lookup_insert_ne by done.
  apply lookup_union_None. by rewrite lookup_insert_ne.
Qed.

Lemma merged_of_Tp (rd : gmap string string) (c : string) :
  merged_of rd c !! "Tp" = Some (tp_of c).
Proof. unfold merged_of. apply lookup_insert_eq. Qed.

Lemma render_line_contains (order : list string)
      (merged : gmap string string) (k : string) :
  k ∈ order →
  ∃ pre post, render_line order merged = pre +:+ render_tag merged k +:+ post.
Proof.
  unfold render_line. induction order as [|x order IH]; intros Hin.
  - by apply elem_of_nil in Hin.
  - cbn [map]. rewrite join_empty_cons.
    apply elem_of_cons in Hin as [->|Hin].
    + by exists EmptyString,
        (PyStr.join EmptyString (map (render_tag merged) order)).
    + destruct (IH Hin) as (pre & post & ->).
      exists (render_tag merged x +:+ pre), post.
      by rewrite string_app_assoc.
Qed.

Lemma process_row_ok (hs row : list string) (order : list string)
      (merged : gmap string string) :
  record hs row = Ok (order, merged) →
  row_line hs row = Ok (render_line order merged).
Proof. unfold process_row. by intros ->. Qed.

(** The only way to the counter-party response. *)
Lemma process_row_ctrpty (hs row : list string) (v : string) :
  row_line hs row = Return (InvalidCtrPty v) →
  v = ctrpty_of hs row ∧ ctrpty_rejected v = true.
Proof.
  unfold process_row. rewrite canonical_record_steps.
  destruct (normalize_dt parse_dayfirst (trimmed_row hs row)) as [rd1|r]
    eqn:Hdt; simpl.
  2:{ unfold normalize_dt in Hdt. repeat case_match; by simplify_eq. }
  destruct (ctrpty_rejected (ctrpty_of hs row)) eqn:Hrej; simpl.
  { by intros [= <-]. }
  destruct (format_amount float_fixed 3 "Qty" InvalidQty _) as [rd2|r]
    eqn:Hqty; simpl.
  2:{ apply format_amount_error in Hqty as [x ->]. done. }
  destruct (format_amount float_fixed 2 "Conamt" InvalidConamt rd2)
    as [rd3|r] eqn:Hcon; simpl; [done|].
  apply format_amount_error in Hcon as [x ->]. done.
Qed.

Lemma build_body_ctrpty (hs : list string) (rs : list (list string))
      (v : string) :
  body hs rs = Return (InvalidCtrPty v) →
  ∃ row, row ∈ rs ∧ v = ctrpty_of hs row ∧ ctrpty_rejected v = true.
Proof.
  induction rs as [|row rest IH]; simpl; [done|].
  destruct (row_line hs row) as [line|r] eqn:Hrow.
  - destruct (body hs rest) as [lines|r]; [done|].
    intros [= ->]. destruct (IH eq_refl) as (row' & Hin & ?).
    exists row'. split; [by apply list_elem_of_further | done].
  - intros [= ->]. apply process_row_ctrpty in Hrow.
    exists row. split; [apply list_elem_of_here | done].
Qed.

Lemma upload_csv_ctrpty (env : Env) (file : Upload) (w : World)
      (v : string) :
  (upload env (Some file) w).1 = InvalidCtrPty v →
  body (headers file) (data_rows file) = Return (InvalidCtrPty v).
Proof.
  rewrite upload_csv_phases.
  destruct (file_given file); cbn [negb]; [|done].
  destruct (duplicate env file w) as [old|]; [done|].
  destruct (bool_decide (length (rows file) < 2)); [done|].
  destruct (dates (headers file) (data_rows file)) as [fd|r] eqn:Hdates;
    simpl.
  - destruct (body (headers file) (data_rows file)) as [lines|r]; simpl;
      [done | congruence].
  - intros ->. by apply validate_dates_error in Hdates.
Qed.

(** C5: a data row that reaches the test on its counter-party identifier
    (its date was normalised) is answered with the counter-party error,
    carrying the trimmed identifier, exactly when the field is absent,
    empty or not 16 characters long; 15 and 17 characters are rejected
    whatever the prefix; and a request that ends in that error has a data
    row whose identifier is the value reported. *)
Theorem ctrpty_rejected_iff (hs row : list string)
        (rd : gmap string string) :
  normalize_dt parse_dayfirst (trimmed_row hs row) = Ok rd →
  let c := ctrpty_of hs row in
  (row_line hs row = Return (InvalidCtrPty c)
   ↔ trimmed_row hs row !! "CtrPty" = None ∨ c = EmptyString
     ∨ String.length c ≠ 16)
  ∧ (∀ v, row_line hs row = Return (InvalidCtrPty v) → v = c)
  ∧ (error_class (InvalidCtrPty c) = Some InvalidCounterpartyError)
  ∧ (String.length c = 15 ∨ String.length c = 17 →
     row_line hs row = Return (InvalidCtrPty c))
  ∧ (∀ env file w v,
       (upload env (Some file) w).1 = InvalidCtrPty v →
       ∃ row', row' ∈ data_rows file
               ∧ v = ctrpty_of (headers file) row'
               ∧ (v = EmptyString ∨ String.length v ≠ 16)).
Proof.
  intros Hdt c.
  assert (Hrow : ctrpty_rejected c = true →
                 row_line hs row = Return (InvalidCtrPty c)).
  { intros Hrej. unfold process_row. rewrite canonical_record_steps, Hdt.
    cbv zeta. fold c. by rewrite Hrej. }
  split; [|split; [|split; [done|split]]].
  - split.
    + intros H. apply process_row_ctrpty in H as [_ Hrej].
      apply ctrpty_rejected_true in Hrej. tauto.
    + intros H. apply Hrow, ctrpty_rejected_true.
      destruct H as [Hnone|H]; [|done].
      left. subst c. unfold ctrpty_of, get_or_empty. by rewrite Hnone.
  - intros v H. by apply process_row_ctrpty in H as [-> _].
  - intros H. apply Hrow, ctrpty_rejected_true. right. lia.
  - intros env file w v H.
    apply upload_csv_ctrpty, build_body_ctrpty in H
      as (row' & Hin & -> & Hrej).
    exists row'. split; [done|]. split; [done|].
    by apply ctrpty_rejected_true.
Qed.

(** C6: for a row with a valid 16-character identifier, the line is the
    rendering of the tags of its order. When the identifier starts with
    [IN], the order has the broker and client tags and not the
    whole-identifier tag, and the line contains the broker tag with the
    first eight characters and the client tag with the last eight. For any
    other valid identifier the order has the whole-identifier tag, which
    the line contains with the identifier in it, and neither the broker nor
    the client tag; broker and client values of the input are removed from
    the record. *)
Theorem identifier_split_or_whole (hs row : list string)
        (order : list string) (merged : gmap string string) :
  record hs row = Ok (order, merged) →
  let c := ctrpty_of hs row in
  let line := render_line order merged in
  String.length c = 16
  ∧ row_line hs row = Ok line
  ∧ (PyStr.startswith "IN" c = true →
     order = RAW_ORDER_NSDL
     ∧ ("CtrPty" ∉ order)
     ∧ render_tag merged "Brkr" = "<Brkr>" +:+ PyStr.take 8 c +:+ "</Brkr>"
     ∧ render_tag merged "Clnt" = "<Clnt>" +:+ PyStr.drop 8 c +:+ "</Clnt>"
     ∧ String.length (PyStr.take 8 c) = 8
     ∧ String.length (PyStr.drop 8 c) = 8
     ∧ PyStr.take 8 c +:+ PyStr.drop 8 c = c
     ∧ (∃ pre post, line = pre +:+ render_tag merged "Brkr" +:+ post)
     ∧ (∃ pre post, line = pre +:+ render_tag merged "Clnt" +:+ post))
  ∧ (PyStr.startswith "IN" c = false →
     order = RAW_ORDER_CDSL
     ∧ ("Brkr" ∉ order) ∧ ("Clnt" ∉ order)
     ∧ merged !! "Brkr" = None ∧ merged !! "Clnt" = None
     ∧ render_tag merged "CtrPty" = "<CtrPty>" +:+ c +:+ "</CtrPty>"
     ∧ (∃ pre post, line = pre +:+ render_tag merged "CtrPty" +:+ post)).
Proof.
  intros Hrec c line.
  pose proof (process_row_ok _ _ _ _ Hrec) as Hline.
  apply canonical_record_ok in Hrec
    as (rd1 & rd3 & Hdt & Hrej & Horder & Hmerged & Hrd3).
  fold c in Hrej, Horder, Hmerged, Hrd3.
  assert (Hlen : String.length c = 16).
  { destruct (decide (String.length c = 16)) as [|Hne]; [done|].
    assert (ctrpty_rejected c = true); [|congruence].
    apply ctrpty_rejected_true. by right. }
  split; [done|]. split; [done|]. split.
  - intros Hin. unfold order_of in Horder. rewrite Hin in Horder.
    assert (Hb : merged !! "Brkr" = Some (PyStr.take 8 c)).
    { subst merged. apply merged_of_lookup_Some; [done|done|].
      rewrite Hrd3 by done. unfold classified. rewrite Hin.
      rewrite lookup_insert_ne by done. apply lookup_insert_eq. }
    assert (Hc : merged !! "Clnt" = Some (PyStr.drop 8 c)).
    { subst merged. apply merged_of_lookup_Some; [done|done|].
      rewrite Hrd3 by done. unfold classified. rewrite Hin.
      apply lookup_insert_eq. }
    split; [done|]. split; [subst order; compute_done|].
    split; [unfold render_tag, get_or_empty; by rewrite Hb|].
    split; [unfold render_tag, get_or_empty; by rewrite Hc|].
    split; [rewrite take_length; lia|].
    split; [rewrite drop_length; lia|].
    split; [apply take_drop|].
    split; apply render_line_contains; subst order; compute_done.
  - intros Hin. unfold order_of in Horder. rewrite Hin in Horder.
    assert (Hb : merged !! "Brkr" = None).
    { subst merged. apply merged_of_lookup_None; [done|done| |done].
      rewrite Hrd3 by done. unfold classified. rewrite Hin.
      apply lookup_delete_eq. }
    assert (Hc : merged !! "Clnt" = None).
    { subst merged. apply merged_of_lookup_None; [done|done| |done].
      rewrite Hrd3 by done. unfold classified. rewrite Hin.
      rewrite lookup_delete_ne by done. apply lookup_delete_eq. }
    assert (Hw : merged !! "CtrPty" = Some c).
    { subst merged. apply merged_of_lookup_Some; [done|done|].
      rewrite Hrd3 by done. unfold classified. rewrite Hin.
      rewrite !lookup_delete_ne by done. apply lookup_insert_eq. }
    split; [done|]. split; [subst order; compute_done|].
    split; [subst order; compute_done|].
    split; [done|]. split; [done|].
    split; [unfold render_tag, get_or_empty; by rewrite Hw|].
    apply render_line_contains. subst order. compute_done.
Qed.

(** C10: the test for Depository-A is [startswith("IN")], which holds
    exactly when the first two characters are the capitals I and N. A valid
    identifier that passes it gets type code 4 and the split order; any
    other valid identifier, one that starts with the small letters [in]
    among them, gets type code 5, the whole-identifier order and its
    identifier kept whole. The type code opens the line, and the two codes
    differ. *)
Theorem classification_is_case_sensitive (hs row : list string)
        (order : list string) (merged : gmap string string) :
  record hs row = Ok (order, merged) →
  let c := ctrpty_of hs row in
  (PyStr.startswith "IN" c = true
   ↔ ∃ rest, c = String "I" (String "N" rest))
  ∧ (PyStr.startswith "IN" c = true →
     merged !! "Tp" = Some "4" ∧ order = RAW_ORDER_NSDL)
  ∧ (PyStr.startswith "IN" c = false →
     merged !! "Tp" = Some "5" ∧ order = RAW_ORDER_CDSL
     ∧ merged !! "CtrPty" = Some c)
  ∧ (∀ rest, c = String "i" (String "n" rest) →
     merged !! "Tp" = Some "5" ∧ order = RAW_ORDER_CDSL
     ∧ merged !! "CtrPty" = Some c)
  ∧ (∃ post,
       render_line order merged
       = "<Tp>" +:+ tp_of c +:+ "</Tp>" +:+ post)
  ∧ tp_of "IN" ≠ tp_of "in".
Proof.
  intros Hrec c.
  apply canonical_record_ok in Hrec
    as (rd1 & rd3 & Hdt & Hrej & Horder & Hmerged & Hrd3).
  fold c in Hrej, Horder, Hmerged, Hrd3.
  assert (Htp : merged !! "Tp" = Some (tp_of c)).
  { subst merged. apply merged_of_Tp. }
  assert (HB : PyStr.startswith "IN" c = false →
               merged !! "Tp" = Some "5" ∧ order = RAW_ORDER_CDSL
               ∧ merged !! "CtrPty" = Some c).
  { intros Hin. unfold tp_of in Htp. unfold order_of in Horder.
    rewrite Hin in Htp, Horder. split; [done|]. split; [done|].
    subst merged. apply merged_of_lookup_Some; [done|done|].
    rewrite Hrd3 by done. unfold classified. rewrite Hin.
    rewrite !lookup_delete_ne by done. apply lookup_insert_eq. }
  split; [apply startswith_IN|]. split; [|split; [done|split; [|split]]].
  - intros Hin. unfold tp_of in Htp. unfold order_of in Horder.
    by rewrite Hin in Htp, Horder.
  - intros rest Hc. apply HB. rewrite Hc. by destruct rest.
  - unfold render_line, order_of in *.
    assert (Hhead : ∃ tl, order = "Tp" :: tl) by
      (destruct (PyStr.startswith "IN" c); subst order; eauto).
    destruct Hhead as [tl ->]. cbn [map]. rewrite join_empty_cons.
    exists (PyStr.join EmptyString (map (render_tag merged) tl)).
    unfold render_tag at 1. unfold get_or_empty. rewrite Htp.
    cbn [default from_option id]. by rewrite !string_app_assoc.
  - done.
Qed.

(** *** Quantity, amount and reference number *)

Lemma classified_plain (rd : gmap string string) (c k : string) :
  plain_column k → classified rd c !! k = rd !! k.
Proof.
  intros (Hdt & Hx & Hcl & Hbr & Hct). unfold classified.
  destruct (PyStr.startswith "IN" c).
  - by rewrite !lookup_insert_ne.
  - rewrite !lookup_delete_ne by done. by rewrite lookup_insert_ne.
Qed.

Lemma before_amounts_plain (hs row : list string)
      (rd1 : gmap string string) (c k : string) :
  normalize_dt parse_dayfirst (trimmed_row hs row) = Ok rd1 →
  plain_column k →
  classified (<["Xferdt" := get_or_empty rd1 "Dt"]> rd1) c !! k
  = trimmed_row hs row !! k.
Proof.
  intros Hdt Hk. rewrite classified_plain by done.
  destruct Hk as (? & ? & _).
  rewrite lookup_insert_ne by done.
  by apply (normalize_dt_lookup _ _ _ Hdt).
Qed.

(** The amounts of a row that passes: an empty value is left as it is,
    any other value is what [float_fixed] makes of it. *)
Lemma record_amounts (hs row : list string) (order : list string)
      (merged : gmap string string) :
  record hs row = Ok (order, merged) →
  (if nonempty (without_commas hs row "Qty")
   then ∃ s, float_fixed 3 (without_commas hs row "Qty") = Some s
             ∧ merged !! "Qty" = Some s
   else merged !! "Qty" = trimmed_row hs row !! "Qty")
  ∧ (if nonempty (without_commas hs row "Conamt")
     then ∃ s, float_fixed 2 (without_commas hs row "Conamt") = Some s
               ∧ merged !! "Conamt" = Some s
     else merged !! "Conamt" = trimmed_row hs row !! "Conamt")
  ∧ merged !! "Chqrefno"
    = Some (let chqref :=
              PyStr.strip (get_or_empty (trimmed_row hs row) "Chqrefno") in
            if nonempty chqref then PyStr.zfill 8 chqref else "00000000").
Proof.
  rewrite canonical_record_steps.
  destruct (normalize_dt parse_dayfirst (trimmed_row hs row)) as [rd1|r]
    eqn:Hdt; [|done].
  cbv zeta.
  destruct (ctrpty_rejected (ctrpty_of hs row)); [done|].
  set (rd0 := classified _ (ctrpty_of hs row)).
  assert (Hsrc : ∀ k, plain_column k → rd0 !! k = trimmed_row hs row !! k).
  { intros k Hk. by apply before_amounts_plain. }
  destruct (format_amount float_fixed 3 "Qty" InvalidQty rd0) as [rd2|r]
    eqn:Hqty; [|done].
  destruct (format_amount float_fixed 2 "Conamt" InvalidConamt rd2)
    as [rd3|r] eqn:Hcon; [|done].
  intros [= <- <-].
  assert (Hmerged : ∀ k, k ≠ "Tp" → k ≠ "Chqrefno" →
                         CONSTANT_FIELDS !! k = None →
                         merged_of rd3 (ctrpty_of hs row) !! k = rd3 !! k).
  { intros k ? ? Hconst. unfold merged_of.
    rewrite lookup_insert_ne by done.
    rewrite lookup_union_l by done. by rewrite lookup_insert_ne. }
  assert (Hq2 : rd2 !! "Conamt" = trimmed_row hs row !! "Conamt").
  { rewrite (format_amount_lookup _ _ _ _ _ "Conamt" Hqty) by done.
    apply Hsrc. by repeat split. }
  assert (Hq : get_or_empty rd0 "Qty"
               = get_or_empty (trimmed_row hs row) "Qty").
  { unfold get_or_empty. rewrite Hsrc; [done | by repeat split]. }
  assert (Hc : get_or_empty rd2 "Conamt"
               = get_or_empty (trimmed_row hs row) "Conamt").
  { unfold get_or_empty. by rewrite Hq2. }
  unfold without_commas.
  split; [|split].
  - rewrite Hmerged by done.
    rewrite (format_amount_lookup _ _ _ _ _ "Qty" Hcon) by done.
    unfold format_amount in Hqty. rewrite Hq in Hqty.
    destruct (nonempty (PyStr.remove_char ","
                (get_or_empty (trimmed_row hs row) "Qty"))).
    + destruct (float_fixed 3 (PyStr.remove_char ","
                  (get_or_empty (trimmed_row hs row) "Qty"))) as [s|];
        [|done].
      injection Hqty as <-. exists s. split; [done|].
      apply lookup_insert_eq.
    + injection Hqty as <-. apply Hsrc. by repeat split.
  - rewrite Hmerged by done.
    unfold format_amount in Hcon. rewrite Hc in Hcon.
    destruct (nonempty (PyStr.remove_char ","
                (get_or_empty (trimmed_row hs row) "Conamt"))).
    + destruct (float_fixed 2 (PyStr.remove_char ","
                  (get_or_empty (trimmed_row hs row) "Conamt"))) as [s|];
        [|done].
      injection Hcon as <-. exists s. split; [done|].
      apply lookup_insert_eq.
    + by injection Hcon as <-.
  - unfold merged_of. rewrite lookup_insert_ne by done.
    erewrite lookup_union_Some_l; [reflexivity|].
    rewrite lookup_insert_eq. unfold pad_chqrefno, get_or_empty.
    rewrite (format_amount_lookup _ _ _ _ _ "Chqrefno" Hcon) by done.
    rewrite (format_amount_lookup _ _ _ _ _ "Chqrefno" Hqty) by done.
    rewrite Hsrc by (by repeat split). done.
Qed.

(** A quantity or an amount that [float] does not read ends the request
    with the name of the field and the stripped value of the column. *)
Lemma record_amount_errors (hs row : list string)
      (rd1 : gmap string string) :
  normalize_dt parse_dayfirst (trimmed_row hs row) = Ok rd1 →
  ctrpty_rejected (ctrpty_of hs row) = false →
  (nonempty (without_commas hs row "Qty") = true →
   float_fixed 3 (without_commas hs row "Qty") = None →
   record hs row
   = Return (InvalidQty (get_or_empty (trimmed_row hs row) "Qty")))
  ∧ ((nonempty (without_commas hs row "Qty") = false
      ∨ is_Some (float_fixed 3 (without_commas hs row "Qty"))) →
     nonempty (without_commas hs row "Conamt") = true →
     float_fixed 2 (without_commas hs row "Conamt") = None →
     record hs row
     = Return (InvalidConamt (get_or_empty (trimmed_row hs row) "Conamt"))).
Proof.
  intros Hdt Hrej. rewrite canonical_record_steps, Hdt. cbv zeta.
  rewrite Hrej.
  set (rd0 := classified _ (ctrpty_of hs row)).
  assert (Hsrc : ∀ k, plain_column k → rd0 !! k = trimmed_row hs row !! k).
  { intros k Hk. by apply before_amounts_plain. }
  assert (Hq : get_or_empty rd0 "Qty"
               = get_or_empty (trimmed_row hs row) "Qty").
  { unfold get_or_empty. rewrite Hsrc; [done | by repeat split]. }
  unfold without_commas. split.
  - intros Hne Hnone. unfold format_amount at 1. by rewrite Hq, Hne, Hnone.
  - intros Hqty Hne Hnone.
    assert (Hrd2 : ∃ rd2,
               format_amount float_fixed 3 "Qty" InvalidQty rd0 = Ok rd2
               ∧ rd2 !! "Conamt" = trimmed_row hs row !! "Conamt").
    { unfold format_amount. rewrite Hq.
      destruct Hqty as [Hempty|[s Hs]].
      - rewrite Hempty. exists rd0. split; [done|].
        apply Hsrc. by repeat split.
      - destruct (nonempty (PyStr.remove_char ","
                    (get_or_empty (trimmed_row hs row) "Qty"))).
        + rewrite Hs. exists (<["Qty" := s]> rd0). split; [done|].
          rewrite lookup_insert_ne by done. apply Hsrc. by repeat split.
        + exists rd0. split; [done|]. apply Hsrc. by repeat split. }
    destruct Hrd2 as (rd2 & -> & Hc).
    unfold format_amount, get_or_empty. rewrite Hc.
    fold (get_or_empty (trimmed_row hs row) "Conamt").
    by rewrite Hne, Hnone.
Qed.

End Handler.

(** ** Evaluation on concrete requests

    The handler is run here with the reference models of the library calls,
    from an empty state, on 3 November 2026 unless said otherwise. *)

(** The sample batch is accepted, then sent again the next day under
    another file name: the second request is answered from the table. *)
Lemma duplicate_upload_short_circuits_witness :
  ref_upload_csv env_nov_3 (Some sample_file) empty_world
  = (RawFileCreated sample_name,
     (ref_upload_csv env_nov_3 (Some sample_file) empty_world).2)
  ∧ ∃ prev,
      prev ∈ db_uploaded
               (ref_upload_csv env_nov_3 (Some sample_file) empty_world).2
      ∧ file_hash prev
        = Ref.sha256_hexdigest (upload_content sample_file_again)
      ∧ ref_upload_csv env_nov_4 (Some sample_file_again)
          (ref_upload_csv env_nov_3 (Some sample_file) empty_world).2
        = (FileAlreadyExists (raw_filename prev),
           (ref_upload_csv env_nov_3 (Some sample_file) empty_world).2)
      ∧ (∀ b,
           counter_view b
             (ref_upload_csv env_nov_4 (Some sample_file_again)
                (ref_upload_csv env_nov_3 (Some sample_file)
                   empty_world).2).2
           = counter_view b
               (ref_upload_csv env_nov_3 (Some sample_file) empty_world).2)
      ∧ (db_lookup_ok env_nov_3 = true →
         raw_filename prev = sample_name
         ∧ files (ref_upload_csv env_nov_3 (Some sample_file) empty_world).2
             !! path_join RECONVERTED_FOLDER sample_name
           = Some (raw_content prev)).
Proof.
  assert (Hfirst :
            ref_upload_csv env_nov_3 (Some sample_file) empty_world
            = (RawFileCreated sample_name,
               (ref_upload_csv env_nov_3 (Some sample_file) empty_world).2)).
  { vm_compute. reflexivity. }
  split; [exact Hfirst|].
  exact (duplicate_upload_short_circuits
           Ref.sha256_hexdigest Ref.csv_reader Ref.parse_dayfirst
           Ref.float_fixed env_nov_3 env_nov_4 sample_file sample_file_again
           empty_world _ sample_name eq_refl eq_refl eq_refl eq_refl
           Hfirst).
Defined.

(** A batch whose only row has a five-character identifier is refused with
    the counter-party response, and yet the counter has moved from nothing
    to id 1: the sample batch sent next gets id 2. *)
Lemma allocator_skips_on_row_error :
  let first := ref_upload_csv env_nov_3 (csv_upload short_ctrpty_lines)
                 empty_world in
  first.1 = InvalidCtrPty "SHORT"
  ∧ error_class first.1 = Some InvalidCounterpartyError
  ∧ db_counter empty_world = None
  ∧ db_counter first.2 = Some (mkFileCounter 1 "2026-11-03")
  ∧ (ref_upload_csv env_nov_3 (Some sample_file) first.2).1
    = RawFileCreated "181207650000865934.03112026.00002".
Proof. vm_compute. repeat split; reflexivity. Qed.

(** The same refused batch leaves no file and no row in the table. *)
Lemma error_leaves_no_artifact_witness :
  is_Some (error_class
             (ref_upload_csv env_nov_3 (csv_upload short_ctrpty_lines)
                empty_world).1)
  ∧ files (ref_upload_csv env_nov_3 (csv_upload short_ctrpty_lines)
             empty_world).2 = files empty_world
  ∧ db_uploaded (ref_upload_csv env_nov_3 (csv_upload short_ctrpty_lines)
                   empty_world).2 = db_uploaded empty_world.
Proof.
  assert (Herr : is_Some (error_class
             (ref_upload_csv env_nov_3 (csv_upload short_ctrpty_lines)
                empty_world).1)).
  { exists InvalidCounterpartyError. vm_compute. reflexivity. }
  split; [exact Herr|].
  pose proof (error_leaves_no_artifact
                Ref.sha256_hexdigest Ref.csv_reader Ref.parse_dayfirst
                Ref.float_fixed env_nov_3
                (mkUpload "batch.csv" (csv_text short_ctrpty_lines))
                empty_world Herr) as (Hfiles & Htable & _).
  split; [exact Hfiles | exact Htable].
Defined.

(** The sample batch is dated 1 January 2025 and served on 3 November 2026:
    its header line ends in [03112026], not in the issue date [01012025]. *)
Lemma header_shows_creation_date_not_issue_date :
  let served := ref_upload_csv env_nov_3 (Some sample_file) empty_world in
  served.1 = RawFileCreated sample_name
  ∧ ref_validate_dates sample_headers
      (List.tl (Ref.csv_reader (PyStr.splitlines (csv_text sample_lines))))
    = Ok "01012025"
  ∧ first_line
      (default EmptyString
         (files served.2 !! path_join RECONVERTED_FOLDER sample_name))
    = "076500DPADM 0000010000103112026"
  ∧ "076500DPADM 0000010000103112026"
    ≠ RAW_HEADER_PREFIX +:+ " " +:+ "000001" +:+ "00001" +:+ "01012025".
Proof. vm_compute. repeat split; try reflexivity. discriminate. Qed.

(** The envelope of the sample batch. *)
Lemma header_carries_creation_date_witness :
  ref_upload_csv env_nov_3 (Some sample_file) empty_world
  = (RawFileCreated sample_name,
     (ref_upload_csv env_nov_3 (Some sample_file) empty_world).2)
  ∧ ∃ issue_date lines,
      ref_validate_dates
        (headers_of Ref.csv_reader sample_file)
        (data_rows_of Ref.csv_reader sample_file) = Ok issue_date
      ∧ length lines = 1
      ∧ files (ref_upload_csv env_nov_3 (Some sample_file) empty_world).2
          !! path_join RECONVERTED_FOLDER sample_name
        = Some (PyStr.join newline
                  ("076500DPADM 0000010000103112026"
                     :: lines ++ [EmptyString])).
Proof.
  assert (Hfirst :
            ref_upload_csv env_nov_3 (Some sample_file) empty_world
            = (RawFileCreated sample_name,
               (ref_upload_csv env_nov_3 (Some sample_file) empty_world).2)).
  { vm_compute. reflexivity. }
  split; [exact Hfirst|].
  destruct (header_carries_creation_date
              Ref.sha256_hexdigest Ref.csv_reader Ref.parse_dayfirst
              Ref.float_fixed env_nov_3 sample_file empty_world _
              sample_name Hfirst)
    as (issue_date & lines & Hdates & _ & Hlen & Hfile & _).
  exists issue_date, lines.
  split; [exact Hdates|]. split; [exact Hlen|]. exact Hfile.
Defined.

(** A data row of two cells under a header of five columns: the request is
    accepted, with no format error. *)
Lemma ragged_row_is_accepted :
  let all_rows := Ref.csv_reader (PyStr.splitlines (csv_text ragged_lines)) in
  map length all_rows = [5; 2]
  ∧ (ref_upload_csv env_nov_3 (csv_upload ragged_lines) empty_world).1
    = RawFileCreated sample_name
  ∧ error_class
      (ref_upload_csv env_nov_3 (csv_upload ragged_lines) empty_world).1
    ≠ Some FormatError.
Proof. vm_compute. repeat split; try reflexivity. discriminate. Qed.

(** Day first, [01/02/2024] is 1 February and [02-01-2024] is 2 January: a
    batch with these two dates is refused with the mismatch response. *)
Lemma later_row_02_01_2024_is_rejected :
  Ref.parse_dayfirst "01/02/2024" = Some (mkDate 2024 2 1)
  ∧ Ref.parse_dayfirst "02-01-2024" = Some (mkDate 2024 1 2)
  ∧ (ref_upload_csv env_nov_3
       (csv_upload (two_dates_lines "01/02/2024" "02-01-2024"))
       empty_world).1
    = DtMismatch "02012024" "01022024"
  ∧ ∀ name,
      (ref_upload_csv env_nov_3
         (csv_upload (two_dates_lines "01/02/2024" "02-01-2024"))
         empty_world).1
      ≠ RawFileCreated name.
Proof. vm_compute. repeat split; try reflexivity. discriminate. Qed.

(** C9 (amended): the validation reads the date of every row that has a
    non-empty one with the day-first parser and compares the normalised
    [ddmmyyyy] values with that of the first row; rows whose date is empty
    or absent are passed over. After a first row dated [01/02/2024], a later
    row [01-02-2024] (the same day, written with another separator) is
    accepted, while [02-01-2024] (2 January, day first) and [03/02/2024]
    are refused with the mismatch response, which carries the normalised
    value of the offending row and the file date. *)
Theorem batch_dates_day_first :
  (∀ parse hs rs fd,
     validate_dates parse hs rs = Ok fd
     ↔ (∃ v d, row_dict_of hs (List.hd [] rs) !! "Dt" = Some v
               ∧ nonempty v = true
               ∧ parse v = Some d ∧ fd = strftime_dmY d)
       ∧ Forall (date_agrees parse hs fd) rs)
  ∧ (∀ parse hs rs dt fd,
       validate_dates parse hs rs = Return (DtMismatch dt fd) →
       dt ≠ fd
       ∧ (∃ v d, row_dict_of hs (List.hd [] rs) !! "Dt" = Some v
                 ∧ parse v = Some d ∧ fd = strftime_dmY d)
       ∧ ∃ row v d, row ∈ rs ∧ row_dict_of hs row !! "Dt" = Some v
                    ∧ parse v = Some d ∧ dt = strftime_dmY d)
  ∧ Ref.parse_dayfirst "01/02/2024" = Some (mkDate 2024 2 1)
  ∧ Ref.parse_dayfirst "01-02-2024" = Some (mkDate 2024 2 1)
  ∧ Ref.parse_dayfirst "02-01-2024" = Some (mkDate 2024 1 2)
  ∧ (ref_upload_csv env_nov_3
       (csv_upload (two_dates_lines "01/02/2024" "01-02-2024"))
       empty_world).1 = RawFileCreated sample_name
  ∧ (ref_upload_csv env_nov_3
       (csv_upload (two_dates_lines "01/02/2024" "02-01-2024"))
       empty_world).1 = DtMismatch "02012024" "01022024"
  ∧ (ref_upload_csv env_nov_3
       (csv_upload (two_dates_lines "01/02/2024" "03/02/2024"))
       empty_world).1 = DtMismatch "03022024" "01022024"
  ∧ error_class (DtMismatch "03022024" "01022024") = Some DateMismatchError
  ∧ response_text (DtMismatch "03022024" "01022024")
    = "Mismatch: Dt 03022024 does not match file date 01022024"
  ∧ (ref_upload_csv env_nov_3
       (csv_upload (two_dates_lines "01/02/2024" EmptyString))
       empty_world).1 = RawFileCreated sample_name
  ∧ (ref_upload_csv env_nov_3 (csv_upload dateless_row_lines)
       empty_world).1 = RawFileCreated sample_name.
Proof.
  split; [intros; apply validate_dates_ok_iff|].
  split; [intros parse hs rs dt fd; apply validate_dates_mismatch|].
  vm_compute. repeat split; reflexivity.
Qed.

(** C7: on a row, quantity [1,234.5] becomes [1234.500], amount [999]
    becomes [999.00], an empty reference number becomes [00000000] and
    reference number [42] becomes [00000042]. In general a quantity or an
    amount that is empty once its commas are removed is left as it was, any
    other one is replaced by what [float] and the fixed-point format with
    three, respectively two, decimals make of it, and one that [float]
    does not read ends the request with the response that names the field
    and the value; the reference number is stripped and zero-padded to
    eight characters, or set to eight zeros when empty. *)
Theorem numeric_canonicalization :
  fields_of (ref_canonical_record sample_headers row_nsdl)
            ["Qty"; "Conamt"; "Chqrefno"]
  = Ok ["1234.500"; "999.00"; "00000000"]
  ∧ fields_of (ref_canonical_record sample_headers row_cdsl)
              ["Qty"; "Conamt"; "Chqrefno"]
    = Ok [EmptyString; EmptyString; "00000042"]
  ∧ Ref.float_fixed 3 "1234.5" = Some "1234.500"
  ∧ Ref.float_fixed 2 "999" = Some "999.00"
  ∧ ref_canonical_record sample_headers row_bad_qty
    = Return (InvalidQty "12abc")
  ∧ ref_canonical_record sample_headers row_bad_conamt
    = Return (InvalidConamt "1.2.3")
  ∧ error_class (InvalidQty "12abc") = Some NumericFormatError
  ∧ error_class (InvalidConamt "1.2.3") = Some NumericFormatError
  ∧ response_text (InvalidQty "12abc") = "Invalid Qty: 12abc"
  ∧ response_text (InvalidConamt "1.2.3") = "Invalid Conamt: 1.2.3"
  ∧ (∀ parse float_fixed hs row order merged,
       canonical_record parse float_fixed hs row = Ok (order, merged) →
       (if nonempty (without_commas hs row "Qty")
        then ∃ s, float_fixed 3 (without_commas hs row "Qty") = Some s
                  ∧ merged !! "Qty" = Some s
        else merged !! "Qty" = trimmed_row hs row !! "Qty")
       ∧ (if nonempty (without_commas hs row "Conamt")
          then ∃ s, float_fixed 2 (without_commas hs row "Conamt") = Some s
                    ∧ merged !! "Conamt" = Some s
          else merged !! "Conamt" = trimmed_row hs row !! "Conamt")
       ∧ merged !! "Chqrefno"
         = Some (let chqref :=
                   PyStr.strip
                     (get_or_empty (trimmed_row hs row) "Chqrefno") in
                 if nonempty chqref then PyStr.zfill 8 chqref
                 else "00000000"))
  ∧ (∀ parse float_fixed hs row rd1,
       normalize_dt parse (trimmed_row hs row) = Ok rd1 →
       ctrpty_rejected (ctrpty_of hs row) = false →
       (nonempty (without_commas hs row "Qty") = true →
        float_fixed 3 (without_commas hs row "Qty") = None →
        canonical_record parse float_fixed hs row
        = Return (InvalidQty (get_or_empty (trimmed_row hs row) "Qty")))
       ∧ ((nonempty (without_commas hs row "Qty") = false
           ∨ is_Some (float_fixed 3 (without_commas hs row "Qty"))) →
          nonempty (without_commas hs row "Conamt") = true →
          float_fixed 2 (without_commas hs row "Conamt") = None →
          canonical_record parse float_fixed hs row
          = Return (InvalidConamt
                      (get_or_empty (trimmed_row hs row) "Conamt")))).
Proof.
  do 10 (split; [vm_compute; reflexivity|]).
  split.
  - intros parse float_fixed hs row order merged. apply record_amounts.
  - intros parse float_fixed hs row rd1. apply record_amount_errors.
Qed.

(** A row with the identifier [SHORT]. *)
Lemma ctrpty_rejected_iff_witness :
  normalize_dt Ref.parse_dayfirst (trimmed_row sample_headers row_short)
  = Ok (dict_or_empty
          (normalize_dt Ref.parse_dayfirst
             (trimmed_row sample_headers row_short)))
  ∧ ctrpty_of sample_headers row_short = "SHORT"
  ∧ (ref_process_row sample_headers row_short
     = Return (InvalidCtrPty (ctrpty_of sample_headers row_short))
     ↔ trimmed_row sample_headers row_short !! "CtrPty" = None
       ∨ ctrpty_of sample_headers row_short = EmptyString
       ∨ String.length (ctrpty_of sample_headers row_short) ≠ 16).
Proof.
  assert (Hdt : normalize_dt Ref.parse_dayfirst
                  (trimmed_row sample_headers row_short)
                = Ok (dict_or_empty
                        (normalize_dt Ref.parse_dayfirst
                           (trimmed_row sample_headers row_short)))).
  { vm_compute. reflexivity. }
  split; [exact Hdt|]. split; [reflexivity|].
  exact (proj1 (ctrpty_rejected_iff
                  Ref.sha256_hexdigest Ref.csv_reader Ref.parse_dayfirst
                  Ref.float_fixed sample_headers row_short _ Hdt)).
Defined.

(** A row with an [IN] identifier and its line. *)
Lemma identifier_split_or_whole_witness :
  ref_canonical_record sample_headers row_nsdl
  = Ok (record_or_empty (ref_canonical_record sample_headers row_nsdl))
  ∧ ref_process_row sample_headers row_nsdl
    = Ok ("<Tp>4</Tp><Dt>01012025</Dt><Bnfcry>1207650000865934</Bnfcry>"
          +:+ "<ISIN></ISIN><Qty>1234.500</Qty><Flg>S</Flg><Trf>X</Trf>"
          +:+ "<Clnt>XXXXXXXX</Clnt><Brkr>INXXXXXX</Brkr><Rsn>2</Rsn>"
          +:+ "<Conamt>999.00</Conamt><Paymod>2</Paymod><Bnkno></Bnkno>"
          +:+ "<Bnkname></Bnkname><Brnchname></Brnchname>"
          +:+ "<Xferdt>01012025</Xferdt><Chqrefno>00000000</Chqrefno>")
  ∧ String.length (ctrpty_of sample_headers row_nsdl) = 16.
Proof.
  assert (Hrec : ref_canonical_record sample_headers row_nsdl
                 = Ok (record_or_empty
                         (ref_canonical_record sample_headers row_nsdl))).
  { vm_compute. reflexivity. }
  split; [exact Hrec|]. split; [vm_compute; reflexivity|].
  exact (proj1 (identifier_split_or_whole
                  Ref.parse_dayfirst Ref.float_fixed sample_headers row_nsdl
                  _ _ Hrec)).
Defined.

(** A row whose identifier starts with the small letters [in]. *)
Lemma classification_is_case_sensitive_witness :
  ref_canonical_record sample_headers row_cdsl
  = Ok (record_or_empty (ref_canonical_record sample_headers row_cdsl))
  ∧ ctrpty_of sample_headers row_cdsl = "inXXXXXXXXXXXXXX"
  ∧ (PyStr.startswith "IN" (ctrpty_of sample_headers row_cdsl) = true
     ↔ ∃ rest, ctrpty_of sample_headers row_cdsl
               = String "I" (String "N" rest))
  ∧ fields_of (ref_canonical_record sample_headers row_cdsl)
              ["Tp"; "CtrPty"; "Brkr"; "Clnt"]
    = Ok ["5"; "inXXXXXXXXXXXXXX"; EmptyString; EmptyString].
Proof.
  assert (Hrec : ref_canonical_record sample_headers row_cdsl
                 = Ok (record_or_empty
                         (ref_canonical_record sample_headers row_cdsl))).
  { vm_compute. reflexivity. }
  split; [exact Hrec|]. split; [reflexivity|].
  split; [|vm_compute; reflexivity].
  exact (proj1 (classification_is_case_sensitive
                  Ref.parse_dayfirst Ref.float_fixed sample_headers row_cdsl
                  (record_or_empty
                     (ref_canonical_record sample_headers row_cdsl)).1
                  (record_or_empty
                     (ref_canonical_record sample_headers row_cdsl)).2
                  Hrec)).
Defined.

(** * Further properties of the code *)

(** ** Numbers in file names and headers *)

Lemma digit_char_val (d : Z) :
  (0 ≤ d ≤ 9)%Z → Ref.digit_val (PyStr.digit_char d) = d.
Proof.
  intros Hd.
  assert (Hcases : (d = 0 ∨ d = 1 ∨ d = 2 ∨ d = 3 ∨ d = 4 ∨ d = 5 ∨ d = 6
                    ∨ d = 7 ∨ d = 8 ∨ d = 9)%Z) by lia.
  repeat (destruct Hcases as [->|Hcases]; [reflexivity|]).
  by subst d.
Qed.

Lemma digit_char_not_sign (d : Z) :
  (0 ≤ d ≤ 9)%Z →
  Ascii.eqb (PyStr.digit_char d) "+" || Ascii.eqb (PyStr.digit_char d) "-"
  = false.
Proof.
  intros Hd.
  assert (Hcases : (d = 0 ∨ d = 1 ∨ d = 2 ∨ d = 3 ∨ d = 4 ∨ d = 5 ∨ d = 6
                    ∨ d = 7 ∨ d = 8 ∨ d = 9)%Z) by lia.
  repeat (destruct Hcases as [->|Hcases]; [reflexivity|]).
  by subst d.
Qed.

Lemma digits_fuel_val (fuel : nat) (n : Z) (acc : string) :
  (0 ≤ n < 2 ^ Z.of_nat fuel)%Z →
  Ref.digits_val 0 (PyStr.digits_fuel fuel n acc) = Ref.digits_val n acc.
Proof.
  revert n acc. induction fuel as [|fuel IH]; intros n acc Hn.
  - simpl in *. by replace n with 0%Z by lia.
  - cbn [PyStr.digits_fuel].
    assert (Hmod : (0 ≤ n mod 10 ≤ 9)%Z) by (pose proof (Z.mod_pos_bound n 10); lia).
    assert (Hstep : Ref.digits_val (n / 10)
                      (String (PyStr.digit_char (n mod 10)) acc)
                    = Ref.digits_val n acc).
    { cbn [Ref.digits_val]. rewrite digit_char_val by done.
      f_equal. pose proof (Z.div_mod n 10). lia. }
    destruct (Z.eqb_spec (n / 10) 0) as [Hz|Hnz].
    + rewrite <- Hstep, Hz. done.
    + rewrite IH; [done|].
      rewrite Nat2Z.inj_succ, Z.pow_succ_r in Hn by lia.
      split; [apply Z.div_pos; lia|].
      apply Z.div_lt_upper_bound; lia.
Qed.

Lemma str_nonneg_val (n : Z) :
  (0 ≤ n)%Z → Ref.digits_val 0 (PyStr.str_nonneg n) = n.
Proof.
  intros Hn. unfold PyStr.str_nonneg.
  rewrite digits_fuel_val; [done|].
  split; [done|].
  rewrite Nat2Z.inj_succ, Z2Nat.id by apply Z.log2_nonneg.
  destruct (Z.eq_dec n 0%Z) as [->|Hnz]; [done|].
  apply Z.log2_spec. lia.
Qed.

Lemma digits_fuel_head (fuel : nat) (n : Z) (acc : string) :
  ∃ d rest, (0 ≤ d ≤ 9)%Z
            ∧ PyStr.digits_fuel (S fuel) n acc
              = String (PyStr.digit_char d) rest.
Proof.
  revert n acc. induction fuel as [|fuel IH]; intros n acc.
  - exists (n mod 10)%Z. cbn [PyStr.digits_fuel].
    pose proof (Z.mod_pos_bound n 10).
    destruct (n / 10 =? 0)%Z; eexists; (split; [lia | reflexivity]).
  - change (PyStr.digits_fuel (S (S fuel)) n acc) with
      (if (n / 10 =? 0)%Z
       then String (PyStr.digit_char (n mod 10)) acc
       else PyStr.digits_fuel (S fuel) (n / 10)
              (String (PyStr.digit_char (n mod 10)) acc)).
    destruct (n / 10 =? 0)%Z.
    + exists (n mod 10)%Z, acc. pose proof (Z.mod_pos_bound n 10).
      split; [lia | done].
    + apply IH.
Qed.

Lemma digits_val_zeros (k : nat) (s : string) :
  Ref.digits_val 0 (PyStr.zeros k +:+ s) = Ref.digits_val 0 s.
Proof. induction k as [|k IH]; [done|]. simpl. exact IH. Qed.

(** Reading back a padded number: no digit is lost, whatever the width. *)
Lemma pad_val (width : nat) (n : Z) :
  (0 ≤ n)%Z → Ref.digits_val 0 (pad width n) = n.
Proof.
  intros Hn. unfold pad, PyStr.zfill, PyStr.str_int.
  destruct (Z.ltb_spec n 0) as [?|_]; [lia|].
  destruct (width <=? String.length (PyStr.str_nonneg n));
    [by apply str_nonneg_val|].
  pose proof (str_nonneg_val n Hn) as Hval.
  unfold PyStr.str_nonneg in *.
  destruct (digits_fuel_head (Z.to_nat (Z.log2 n)) n EmptyString)
    as (d & rest & Hd & Heq).
  rewrite Heq in *. rewrite digit_char_not_sign by done.
  by rewrite digits_val_zeros.
Qed.

(** The ids and the row counts are written in full: a padded non-negative
    number reads back as itself at any width, so two requests served on the
    same day get the same file name only if they got the same id. *)
Theorem file_name_identifies_id (todays_date : string) (i j : Z) :
  (0 ≤ i)%Z → (0 ≤ j)%Z →
  Ref.digits_val 0 (PyStr.zfill 5 (PyStr.str_int i)) = i
  ∧ Ref.digits_val 0 (PyStr.zfill 6 (PyStr.str_int i)) = i
  ∧ (make_filename todays_date (PyStr.zfill 5 (PyStr.str_int i))
     = make_filename todays_date (PyStr.zfill 5 (PyStr.str_int j)) →
     i = j).
Proof.
  intros Hi Hj.
  split; [apply (pad_val 5 i Hi)|]. split; [apply (pad_val 6 i Hi)|].
  unfold make_filename. intros Heq.
  apply (inj (String.append "18")) in Heq.
  apply (inj (String.append Bnfcry)) in Heq.
  apply (inj (String.append ".")) in Heq.
  apply (inj (String.append todays_date)) in Heq.
  apply (inj (String.append ".")) in Heq.
  rewrite <- (pad_val 5 i Hi), <- (pad_val 5 j Hj). unfold pad.
  by rewrite Heq.
Qed.

(** ** The allocator and the rest of the state *)

Lemma get_next_file_id_other_backend (db_ok : bool) (now : date)
      (w : World) :
  counter_view (negb db_ok) (get_next_file_id db_ok now w).2
  = counter_view (negb db_ok) w
  ∧ (if db_ok
     then counter_file (get_next_file_id db_ok now w).2 = counter_file w
     else db_counter (get_next_file_id db_ok now w).2 = db_counter w).
Proof.
  unfold get_next_file_id, get_file_counter, counter_view.
  destruct db_ok; simpl; repeat case_match; simplify_eq/=; done.
Qed.

Lemma allocate_all_counter_file (clock : list date) (w : World) :
  counter_file (allocate_all true clock w).2 = counter_file w.
Proof.
  revert w. induction clock as [|now rest IH]; intros w; [done|].
  rewrite allocate_all_cons. cbn [snd]. rewrite IH.
  apply (proj2 (get_next_file_id_other_backend true now w)).
Qed.

(** A run of allocations on one backend changes nothing but the counter of
    that backend: the table of uploads, the written files and the counter
    of the other backend stay as they were. *)
Theorem allocations_touch_one_counter (db_ok : bool) (clock : list date)
        (w : World) :
  let w' := (allocate_all db_ok clock w).2 in
  db_uploaded w' = db_uploaded w
  ∧ files w' = files w
  ∧ (if db_ok then counter_file w' = counter_file w
     else db_counter w' = db_counter w).
Proof.
  revert w. induction clock as [|now rest IH]; intros w.
  - simpl. by destruct db_ok.
  - rewrite allocate_all_cons. cbn [snd]. cbv zeta in IH.
    destruct (IH (get_next_file_id db_ok now w).2) as (Hup & Hfiles & Hother).
    destruct (get_next_file_id_uploaded db_ok now w) as [Hup1 Hfiles1].
    destruct (get_next_file_id_other_backend db_ok now w) as [_ Hother1].
    split; [congruence|]. split; [congruence|].
    destruct db_ok; congruence.
Qed.

(** When what a backend remembers is not negative, every id of a run on it
    is at least 1. *)
Theorem allocated_ids_are_positive (db_ok : bool) (clock : list date)
        (w : World) :
  match counter_view db_ok w with
  | Some (n, _) => (0 ≤ n)%Z
  | None => True
  end →
  Forall (fun i => (1 ≤ i)%Z) (allocate_all db_ok clock w).1.
Proof.
  revert w. induction clock as [|now rest IH]; intros w Hw.
  - constructor.
  - rewrite allocate_all_cons. cbn [fst].
    destruct (get_next_file_id_view db_ok now w) as [Hid Hview].
    assert (Hpos : (1 ≤ (get_next_file_id db_ok now w).1)%Z).
    { rewrite Hid. unfold next_id.
      destruct (counter_view db_ok w) as [[n d]|]; [|done].
      destruct (decide (d = Some (strftime_Ymd now))); lia. }
    constructor; [done|]. apply IH. rewrite Hview. lia.
Qed.

(** The two backends do not know of each other: after any run of
    allocations by the database, the first allocation that falls back to a
    counter file that does not exist yet returns 1 again, and leaves the
    counter of the database where it was. *)
Theorem fallback_counter_starts_over (clock : list date) (now : date)
        (w : World) :
  counter_file w = None →
  let w1 := (allocate_all true clock w).2 in
  (get_next_file_id false now w1).1 = 1%Z
  ∧ db_counter (get_next_file_id false now w1).2 = db_counter w1
  ∧ counter_file (get_next_file_id false now w1).2
    = Some (mkCounterJson (Some 1%Z) (Some (strftime_Ymd now))).
Proof.
  intros Hnone w1.
  pose proof (allocate_all_counter_file clock w) as Hfile.
  fold w1 in Hfile.
  unfold get_next_file_id, get_file_counter. rewrite Hfile, Hnone. done.
Qed.

(** A counter file that lacks a key is read as a counter that has to start:
    without [last_date] the day counts as another day, without [last_id]
    the last id counts as 0; either way the allocation returns 1 and writes
    both keys. *)
Theorem counter_file_missing_key (now : date) (w : World) (j : CounterJson) :
  counter_file w = Some j →
  json_last_id j = None ∨ json_last_date j = None →
  (get_next_file_id false now w).1 = 1%Z
  ∧ counter_file (get_next_file_id false now w).2
    = Some (mkCounterJson (Some 1%Z) (Some (strftime_Ymd now))).
Proof.
  intros Hj Hmissing. unfold get_next_file_id, get_file_counter.
  rewrite Hj. destruct j as [i d]. cbn [json_last_id json_last_date] in *.
  destruct (decide (d ≠ Some (strftime_Ymd now))) as [Hne|Heq]; [done|].
  apply dec_stable in Heq. subst d.
  destruct Hmissing as [->|?]; [done | done].
Qed.

(** ** Rows as dictionaries *)

Lemma dict_snoc (l : list (string * string)) (k v : string) :
  dict (l ++ [(k, v)]) = <[k := v]> (dict l).
Proof. unfold dict. by rewrite foldl_app. Qed.

Lemma dict_lookup_None (l : list (string * string)) (k : string) :
  dict l !! k = None ↔ k ∉ l.*1.
Proof.
  induction l as [|[k' v'] l IH] using rev_ind.
  - split; [intros _; apply not_elem_of_nil | done].
  - rewrite dict_snoc, fmap_app, not_elem_of_app. cbn [fmap list_fmap fst].
    rewrite not_elem_of_cons. destruct (decide (k' = k)) as [->|Hne].
    + rewrite lookup_insert_eq. split; [done | by intros [_ [? _]]].
    + rewrite lookup_insert_ne by done. rewrite IH.
      split; [intros ?; split; [done|]; split; [done | apply not_elem_of_nil]
             | by intros [? _]].
Qed.

Lemma dict_lookup_last (l1 l2 : list (string * string)) (k v : string) :
  k ∉ l2.*1 → dict (l1 ++ (k, v) :: l2) !! k = Some v.
Proof.
  induction l2 as [|[k' v'] l2 IH] using rev_ind; intros Hnot.
  - rewrite dict_snoc. apply lookup_insert_eq.
  - rewrite fmap_app, not_elem_of_app in Hnot. destruct Hnot as [Hl2 Hk'].
    cbn [fmap list_fmap fst] in Hk'. apply not_elem_of_cons in Hk' as [Hne _].
    replace (l1 ++ (k, v) :: l2 ++ [(k', v')])
      with ((l1 ++ (k, v) :: l2) ++ [(k', v')])
      by (by rewrite <- app_assoc).
    rewrite dict_snoc, lookup_insert_ne by done. by apply IH.
Qed.

Lemma zip_fst_take (hs row : list string) :
  (zip hs row).*1 = take (length row) hs.
Proof.
  revert row. induction hs as [|h hs IH]; intros [|c row]; simpl; try done.
  by rewrite IH.
Qed.

(** How a row is read through the header. A column is missing from the
    dictionary of a row exactly when its name is not among the headers the
    row has cells for; and when a name occurs more than once, the cell
    under its last occurrence within the row is the one that counts. *)
Theorem row_dict_of_columns (hs row : list string) (k : string) :
  (row_dict_of hs row !! k = None ↔ k ∉ take (length row) hs)
  ∧ (∀ i v,
       hs !! i = Some k → row !! i = Some v →
       (∀ j, i < j → j < length row → hs !! j ≠ Some k) →
       row_dict_of hs row !! k = Some v).
Proof.
  unfold row_dict_of. split.
  - by rewrite dict_lookup_None, zip_fst_take.
  - intros i v Hh Hr Hlast.
    assert (Hz : zip hs row !! i = Some (k, v)).
    { rewrite lookup_zip_with, Hh. simpl. by rewrite Hr. }
    rewrite <- (take_drop_middle _ _ _ Hz).
    apply dict_lookup_last.
    rewrite zip_with_drop, zip_fst_take.
    intros Hin. apply list_elem_of_lookup in Hin as [j Hj].
    rewrite lookup_take_Some in Hj. destruct Hj as [Hj Hlt].
    rewrite lookup_drop in Hj. rewrite length_drop in Hlt.
    apply (Hlast (S i + j)); [lia | lia | done].
Qed.

(** ** Rows in the body loop *)

Section Rows.

Variable parse_dayfirst : string → option date.
Variable float_fixed : nat → string → option string.

Abbreviation body := (build_body parse_dayfirst float_fixed).
Abbreviation record := (canonical_record parse_dayfirst float_fixed).
Abbreviation row_line := (process_row parse_dayfirst float_fixed).

Lemma build_body_app (hs : list string) (rs1 rs2 : list (list string))
      (lines : list string) :
  body hs rs1 = Ok lines →
  body hs (rs1 ++ rs2)
  = match body hs rs2 with
    | Ok lines2 => Ok (lines ++ lines2)
    | Return r => Return r
    end.
Proof.
  revert lines. induction rs1 as [|row rs1 IH]; intros lines; simpl.
  - intros [= <-]. by destruct (body hs rs2).
  - destruct (row_line hs row) as [line|r]; [|done].
    destruct (body hs rs1) as [ls|r]; [|done].
    intros [= <-]. rewrite (IH ls eq_refl).
    by destruct (body hs rs2).
Qed.

(** The batch ends at the first row that fails: when the rows before it
    pass, the response of that row is the outcome of the body loop,
    whatever rows come after it. *)
Theorem first_failing_row_ends_batch (hs : list string)
        (rs1 rs2 : list (list string)) (row : list string)
        (lines : list string) (r : Response) :
  build_body parse_dayfirst float_fixed hs rs1 = Ok lines →
  process_row parse_dayfirst float_fixed hs row = Return r →
  build_body parse_dayfirst float_fixed hs (rs1 ++ row :: rs2) = Return r.
Proof.
  intros Hbefore Hrow. rewrite (build_body_app _ _ _ _ Hbefore).
  simpl. by rewrite Hrow.
Qed.

Lemma blank_row_line (hs : list string) :
  row_line hs [] = Return (InvalidCtrPty EmptyString).
Proof.
  unfold process_row. rewrite canonical_record_steps.
  assert (Hempty : trimmed_row hs [] = ∅).
  { unfold trimmed_row, row_dict_of. rewrite zip_with_nil_r.
    apply fmap_empty. }
  unfold ctrpty_of. rewrite Hempty. done.
Qed.

(** A data row without cells, which is what the reader makes of a blank
    line, has no counter-party identifier: once the rows before it have
    passed, the batch is refused with the counter-party response carrying
    the empty string, whatever the header is. *)
Theorem blank_row_is_refused (hs : list string)
        (rs1 rs2 : list (list string)) (lines : list string) :
  build_body parse_dayfirst float_fixed hs rs1 = Ok lines →
  build_body parse_dayfirst float_fixed hs (rs1 ++ [] :: rs2)
  = Return (InvalidCtrPty EmptyString).
Proof.
  intros Hbefore. rewrite (build_body_app _ _ _ _ Hbefore).
  simpl. by rewrite blank_row_line.
Qed.

(** A line shows the fields of its tag order and nothing else: two records
    that agree on those fields, an absent field counting as an empty one,
    give the same line. *)
Theorem line_shows_template_fields_only (order : list string)
        (m1 m2 : gmap string string) :
  (∀ k, k ∈ order → get_or_empty m1 k = get_or_empty m2 k) →
  render_line order m1 = render_line order m2.
Proof.
  unfold render_line. induction order as [|k order IH]; intros Hagree.
  - done.
  - cbn [map]. rewrite !join_empty_cons. f_equal.
    + unfold render_tag. rewrite (Hagree k); [done | apply list_elem_of_here].
    + apply IH. intros k' Hk'. apply Hagree. by apply list_elem_of_further.
Qed.

Lemma classified_dates (rd : gmap string string) (c k : string) :
  k = "Dt" ∨ k = "Xferdt" → classified rd c !! k = rd !! k.
Proof.
  intros Hk. unfold classified.
  destruct (PyStr.startswith "IN" c); destruct Hk as [->| ->].
  - by rewrite !lookup_insert_ne.
  - by rewrite !lookup_insert_ne.
  - rewrite !lookup_delete_ne by done. by rewrite lookup_insert_ne.
  - rewrite !lookup_delete_ne by done. by rewrite lookup_insert_ne.
Qed.

Lemma merged_of_other (rd : gmap string string) (c k : string) :
  k ≠ "Tp" → k ≠ "Chqrefno" → CONSTANT_FIELDS !! k = None →
  merged_of rd c !! k = rd !! k.
Proof.
  intros Htp Hchq Hconst. unfold merged_of.
  rewrite lookup_insert_ne by done.
  rewrite lookup_union_l by done. by rewrite lookup_insert_ne.
Qed.

(** The transfer date of a record is its date. The date itself is the
    normalised [ddmmyyyy] form of what the row gave, and stays empty or
    absent when the row gave nothing. *)
Theorem transfer_date_is_the_date (hs row : list string)
        (order : list string) (merged : gmap string string) :
  record hs row = Ok (order, merged) →
  merged !! "Xferdt" = Some (get_or_empty merged "Dt")
  ∧ match trimmed_row hs row !! "Dt" with
    | Some v =>
        if nonempty v
        then ∃ d, parse_dayfirst v = Some d
                  ∧ merged !! "Dt" = Some (strftime_dmY d)
        else merged !! "Dt" = Some EmptyString
    | None => merged !! "Dt" = None
    end.
Proof.
  intros Hrec.
  apply canonical_record_ok in Hrec
    as (rd1 & rd3 & Hdt & _ & _ & -> & Hrd3).
  assert (Hx : merged_of rd3 (ctrpty_of hs row) !! "Xferdt"
               = Some (get_or_empty rd1 "Dt")).
  { rewrite merged_of_other by done. rewrite Hrd3 by done.
    rewrite classified_dates by auto. apply lookup_insert_eq. }
  assert (Hd : merged_of rd3 (ctrpty_of hs row) !! "Dt" = rd1 !! "Dt").
  { rewrite merged_of_other by done. rewrite Hrd3 by done.
    rewrite classified_dates by auto. by rewrite lookup_insert_ne. }
  split.
  - rewrite Hx. unfold get_or_empty. by rewrite Hd.
  - rewrite Hd. unfold normalize_dt in Hdt.
    destruct (trimmed_row hs row !! "Dt") as [v|] eqn:Hv.
    + destruct (nonempty v) eqn:Hne.
      * destruct (parse_dayfirst v) as [d|]; [|done].
        injection Hdt as <-. exists d. split; [done|].
        apply lookup_insert_eq.
      * injection Hdt as <-. rewrite Hv. by destruct v.
    + by injection Hdt as <-.
Qed.

(** The constants are a baseline that the columns of the input override:
    for each of the five constant fields the record holds the stripped cell
    of a column of that name when the row has one, and the constant
    otherwise. *)
Theorem columns_override_constants (hs row : list string)
        (order : list string) (merged : gmap string string) (k : string) :
  record hs row = Ok (order, merged) →
  k ∈ ["Bnfcry"; "Flg"; "Trf"; "Rsn"; "Paymod"] →
  is_Some (CONSTANT_FIELDS !! k)
  ∧ merged !! k
    = match trimmed_row hs row !! k with
      | Some v => Some v
      | None => CONSTANT_FIELDS !! k
      end.
Proof.
  intros Hrec Hk.
  apply canonical_record_ok in Hrec
    as (rd1 & rd3 & Hdt & _ & _ & -> & Hrd3).
  assert (Hrow : ∀ k', plain_column k' → k' ≠ "Qty" → k' ≠ "Conamt" →
                       rd3 !! k' = trimmed_row hs row !! k').
  { intros k' Hplain Hq Hc. rewrite Hrd3 by done.
    by apply (before_amounts_plain parse_dayfirst). }
  assert (Hm : ∀ k', k' ≠ "Tp" → k' ≠ "Chqrefno" →
                     merged_of rd3 (ctrpty_of hs row) !! k'
                     = match rd3 !! k' with
                       | Some v => Some v
                       | None => CONSTANT_FIELDS !! k'
                       end).
  { intros k' Htp Hchq. unfold merged_of.
    rewrite lookup_insert_ne by done. rewrite lookup_union.
    rewrite lookup_insert_ne by done.
    destruct (rd3 !! k'), (CONSTANT_FIELDS !! k'); done. }
  repeat (apply elem_of_cons in Hk as [->|Hk];
          [split; [by eexists|];
           rewrite Hm by done; rewrite Hrow; [done | by repeat split | done
                                              | done] |]).
  by apply elem_of_nil in Hk.
Qed.

(** The reference number of a record has at least eight characters, and
    exactly eight whenever the stripped cell has no more than eight. *)
Theorem reference_number_width (hs row : list string)
        (order : list string) (merged : gmap string string) :
  record hs row = Ok (order, merged) →
  let chqref :=
    PyStr.strip (get_or_empty (trimmed_row hs row) "Chqrefno") in
  ∃ v, merged !! "Chqrefno" = Some v
       ∧ 8 ≤ String.length v
       ∧ (String.length chqref ≤ 8 → String.length v = 8)
       ∧ (8 ≤ String.length chqref → v = chqref).
Proof.
  intros Hrec chqref.
  apply record_amounts in Hrec as (_ & _ & Hchq). fold chqref in Hchq.
  cbv zeta in Hchq. eexists. split; [exact Hchq|].
  destruct (nonempty chqref) eqn:Hne.
  - rewrite zfill_length. split; [lia|]. split; [lia|].
    intros Hlen. unfold PyStr.zfill.
    by destruct (Nat.leb_spec 8 (String.length chqref)); [|lia].
  - destruct chqref; [|done]. simpl. split; [lia|]. split; [done|]. lia.
Qed.

End Rows.

(** ** Requests that go through *)

Lemma has_char_app (c : ascii) (s t : string) :
  has_char c (s +:+ t) = has_char c s || has_char c t.
Proof.
  induction s as [|a s IH]; [done|].
  rewrite string_app_cons. cbn [has_char]. by rewrite IH, orb_assoc.
Qed.

Lemma digit_char_not_dot (d : Z) :
  (0 ≤ d ≤ 9)%Z → Ascii.eqb (PyStr.digit_char d) "." = false.
Proof.
  intros Hd.
  assert (Hcases : (d = 0 ∨ d = 1 ∨ d = 2 ∨ d = 3 ∨ d = 4 ∨ d = 5 ∨ d = 6
                    ∨ d = 7 ∨ d = 8 ∨ d = 9)%Z) by lia.
  repeat (destruct Hcases as [->|Hcases]; [reflexivity|]).
  by subst d.
Qed.

Lemma digits_fuel_no_dot (fuel : nat) (n : Z) (acc : string) :
  has_char "." (PyStr.digits_fuel fuel n acc) = has_char "." acc.
Proof.
  revert n acc. induction fuel as [|fuel IH]; intros n acc; [done|].
  cbn [PyStr.digits_fuel].
  assert (Hstep : has_char "." (String (PyStr.digit_char (n mod 10)) acc)
                  = has_char "." acc).
  { cbn [has_char]. rewrite digit_char_not_dot; [done|].
    pose proof (Z.mod_pos_bound n 10). lia. }
  destruct (n / 10 =? 0)%Z; [done|]. by rewrite IH.
Qed.

Lemma zeros_no_dot (k : nat) : has_char "." (PyStr.zeros k) = false.
Proof. induction k as [|k IH]; [done|]. cbn [PyStr.zeros has_char]. exact IH. Qed.

Lemma file_id_no_dot (width : nat) (n : Z) :
  has_char "." (PyStr.zfill width (PyStr.str_int n)) = false.
Proof.
  assert (Hstr : has_char "." (PyStr.str_int n) = false).
  { unfold PyStr.str_int, PyStr.str_nonneg.
    destruct (n <? 0)%Z; cbn [has_char]; by rewrite digits_fuel_no_dot. }
  unfold PyStr.zfill.
  destruct (width <=? String.length (PyStr.str_int n)); [done|].
  destruct (PyStr.str_int n) as [|c s]; [apply zeros_no_dot|].
  cbn [has_char] in Hstr. apply orb_false_iff in Hstr as [Hc Hs].
  destruct (Ascii.eqb c "+" || Ascii.eqb c "-").
  - cbn [has_char]. by rewrite Hc, has_char_app, zeros_no_dot, Hs.
  - rewrite has_char_app, zeros_no_dot. cbn [has_char]. by rewrite Hc, Hs.
Qed.

(** Removing [.csv] from a name without a dot followed by [.csv]. *)
Lemma remove_sub_csv (s : string) :
  has_char "." s = false → remove_sub ".csv" (s +:+ ".csv") = s.
Proof.
  unfold remove_sub. induction s as [|c s IH]; intros Hs; [done|].
  cbn [has_char] in Hs. apply orb_false_iff in Hs as [Hc Hs].
  rewrite string_app_cons. cbn [remove_sub_go].
  assert (Hpre : String.prefix ".csv" (String c (s +:+ ".csv")) = false).
  { cbn [String.prefix]. destruct (ascii_dec "." c) as [<-|]; [|done].
    by rewrite Ascii.eqb_refl in Hc. }
  rewrite Hpre. by rewrite IH.
Qed.

Lemma folders_differ (a b : string) :
  path_join CSV_FOLDER a ≠ path_join RECONVERTED_FOLDER b.
Proof.
  intros H. apply (f_equal (String.get 0)) in H. vm_compute in H.
  discriminate.
Qed.

Section Requests.

Variable sha256_hexdigest : string → string.
Variable csv_reader : list string → list (list string).
Variable parse_dayfirst : string → option date.
Variable float_fixed : nat → string → option string.

Abbreviation upload :=
  (upload_csv sha256_hexdigest csv_reader parse_dayfirst float_fixed).
Abbreviation body := (build_body parse_dayfirst float_fixed).
Abbreviation dates := (validate_dates parse_dayfirst).
Abbreviation duplicate := (duplicate_of sha256_hexdigest).
Abbreviation rows := (rows_of csv_reader).
Abbreviation headers := (headers_of csv_reader).
Abbreviation data_rows := (data_rows_of csv_reader).
Abbreviation created := (created_world sha256_hexdigest csv_reader).

Lemma upload_csv_created (env : Env) (file : Upload) (w w' : World)
      (name : string) :
  upload env (Some file) w = (RawFileCreated name, w') →
  duplicate env file w = None
  ∧ ∃ fd lines,
      dates (headers file) (data_rows file) = Ok fd
      ∧ body (headers file) (data_rows file) = Ok lines
      ∧ created env file lines w = (name, w').
Proof.
  intros Hup. rewrite upload_csv_phases in Hup.
  destruct (file_given file); [|done]. cbn [negb] in Hup.
  destruct (duplicate env file w) as [old|]; [done|].
  destruct (bool_decide (length (rows file) < 2)); [done|].
  destruct (dates (headers file) (data_rows file)) as [fd|r] eqn:Hdates.
  2:{ apply validate_dates_error in Hdates. by simplify_eq. }
  destruct (body (headers file) (data_rows file)) as [lines|r] eqn:Hbody.
  2:{ apply build_body_error in Hbody. by simplify_eq. }
  split; [done|]. exists fd, lines. split; [done|]. split; [done|].
  injection Hup as <- <-. apply surjective_pairing.
Qed.

(** What an accepted request leaves: the copy of the input under
    [csv_files/<id>.csv], the artifact under [reconverted/<name>], no other
    file touched, and in the table either nothing (the save failed) or one
    new last row that holds the input, its hash, the id, the name and the
    artifact as written. *)
Theorem accepted_upload_is_stored (env : Env) (file : Upload)
        (w w' : World) (name : string) :
  upload env (Some file) w = (RawFileCreated name, w') →
  let csv_path := path_join CSV_FOLDER (file_id_of env w +:+ ".csv") in
  let raw_path := path_join RECONVERTED_FOLDER name in
  ∃ raw,
    files w' !! csv_path = Some (upload_content file)
    ∧ files w' !! raw_path = Some raw
    ∧ (∀ p, p ≠ csv_path → p ≠ raw_path → files w' !! p = files w !! p)
    ∧ db_uploaded w'
      = if db_save_ok env
        then db_uploaded w
               ++ [uploaded_row file
                     (sha256_hexdigest (upload_content file))
                     (file_id_of env w) name raw]
        else db_uploaded w.
Proof.
  intros Hup csv_path raw_path.
  apply upload_csv_created in Hup as (_ & fd & lines & _ & _ & Hcreated).
  unfold created_world in Hcreated. cbv zeta in Hcreated.
  injection Hcreated as Hname Hw'.
  fold (file_id_of env w) in Hname, Hw'.
  destruct (get_next_file_id_uploaded (db_counter_ok env) (now_alloc env) w)
    as [Hup Hfiles].
  eexists. subst w'. rewrite Hname. fold raw_path csv_path.
  split; [|split; [|split]].
  - cbn [files write_file]. rewrite lookup_insert_ne by
      (intros Heq; symmetry in Heq; by apply folders_differ in Heq).
    apply lookup_insert_eq.
  - cbn [files write_file]. apply lookup_insert_eq.
  - intros p Hcsv Hraw. cbn [files write_file].
    rewrite !lookup_insert_ne by done.
    destruct (db_save_ok env); cbn [files add_uploaded]; by rewrite Hfiles.
  - destruct (db_save_ok env); cbn [db_uploaded write_file add_uploaded];
      by rewrite Hup.
Qed.


Lemma created_world_counters (env : Env) (file : Upload)
      (lines : list string) (w : World) (b : bool) :
  counter_view b (created env file lines w).2
  = counter_view b
      (get_next_file_id (db_counter_ok env) (now_alloc env) w).2.
Proof.
  unfold created_world, counter_view. cbn [snd].
  by destruct (db_save_ok env), b.
Qed.

Lemma created_world_uploaded (env : Env) (file : Upload)
      (lines : list string) (w : World) :
  ∃ raw,
    files (created env file lines w).2
      !! path_join RECONVERTED_FOLDER (created env file lines w).1
    = Some raw
    ∧ db_uploaded (created env file lines w).2
      = if db_save_ok env
        then db_uploaded w
               ++ [uploaded_row file
                     (sha256_hexdigest (upload_content file))
                     (file_id_of env w) (created env file lines w).1 raw]
        else db_uploaded w.
Proof.
  unfold created_world. cbv zeta. cbn [fst snd].
  fold (file_id_of env w).
  destruct (get_next_file_id_uploaded (db_counter_ok env) (now_alloc env) w)
    as [Hup _].
  eexists. split.
  - cbn [files write_file]. apply lookup_insert_eq.
  - destruct (db_save_ok env); cbn [db_uploaded write_file add_uploaded];
      by rewrite Hup.
Qed.

Lemma check_dates_kind (hs : list string) (fd : string)
      (rs : list (list string)) (r : Response) :
  check_dates parse_dayfirst hs fd rs = Return r →
  (∃ dt fd', r = DtMismatch dt fd') ∨ (∃ v, r = InvalidDtFormat v).
Proof.
  induction rs as [|row rest IH]; simpl; [done|].
  intros H. repeat case_match; simplify_eq; eauto.
Qed.

(** The two responses about the date of the first row. A request that
    uploads a file (a part with a file name), is not answered from the
    table and has at least two rows ends with the
    missing-date response exactly when the first data row has no [Dt] cell
    or an empty one, and with the invalid-first-date response carrying [v]
    exactly when that cell is the non-empty [v] and the parser refuses
    it. *)
Theorem first_row_date_responses (env : Env) (file : Upload) (w : World) :
  file_given file = true →
  duplicate env file w = None →
  2 ≤ length (rows file) →
  let first :=
    row_dict_of (headers file) (List.hd [] (data_rows file)) !! "Dt" in
  ((upload env (Some file) w).1 = MissingDtFirstRow
   ↔ first = None ∨ first = Some EmptyString)
  ∧ (∀ v, (upload env (Some file) w).1 = InvalidDtFirstRow v
          ↔ first = Some v ∧ v ≠ EmptyString ∧ parse_dayfirst v = None).
Proof.
  intros Hgiven Hdup Hlen first.
  rewrite (upload_csv_phases sha256_hexdigest csv_reader parse_dayfirst
             float_fixed), Hgiven, Hdup.
  cbn [negb].
  rewrite bool_decide_eq_false_2 by lia.
  assert (Hlater : ∀ fd,
            let r := (match check_dates parse_dayfirst (headers file) fd
                              (data_rows file) ≫= (fun _ => Ok fd) with
                      | Ok _ =>
                          match body (headers file) (data_rows file) with
                          | Return r => (r, (get_next_file_id
                                               (db_counter_ok env)
                                               (now_alloc env) w).2)
                          | Ok lines =>
                              (RawFileCreated
                                 (created env file lines w).1,
                               (created env file lines w).2)
                          end
                      | Return r => (r, w)
                      end).1 in
            r ≠ MissingDtFirstRow ∧ ∀ v, r ≠ InvalidDtFirstRow v).
  { intros fd.
    destruct (check_dates parse_dayfirst (headers file) fd (data_rows file))
      as [[]|r] eqn:Hchk; simpl.
    - destruct (body (headers file) (data_rows file)) as [lines|r]
        eqn:Hbody; simpl; [done|].
      apply build_body_error in Hbody. by destruct r.
    - apply check_dates_kind in Hchk as [(? & ? & ->)|(? & ->)]; done. }
  unfold validate_dates, first_row_date. fold first.
  destruct first as [v0|]; simpl.
  2:{ split; [split; [by left | done]|]. intros v. split; [done|].
      by intros [? _]. }
  destruct v0 as [|c v0]; simpl.
  { split; [split; [by right | done]|]. intros v. split; [done|].
    intros [[= <-] [? _]]. done. }
  destruct (parse_dayfirst (String c v0)) as [d|] eqn:Hparse; simpl.
  - destruct (Hlater (strftime_dmY d)) as [Hm Hi]. cbv zeta in Hm, Hi.
    split.
    + split; [done | by intros [?|?]].
    + intros v. split; [by intros ?%Hi|].
      intros [[= <-] [_ ?]]. congruence.
  - split.
    + split; [done | by intros [?|?]].
    + intros v. split.
      * intros [= <-]. done.
      * intros [[= <-] _]. done.
Qed.


Lemma find_snoc {A : Type} (f : A → bool) (l : list A) (u : A) :
  List.find f (l ++ [u])
  = match List.find f l with
    | Some x => Some x
    | None => if f u then Some u else None
    end.
Proof.
  induction l as [|x l IH]; simpl; [done|]. by destruct (f x).
Qed.

Lemma created_world_csv_copy (env : Env) (file : Upload)
      (lines : list string) (w : World) :
  files (created env file lines w).2
    !! path_join CSV_FOLDER (file_id_of env w +:+ ".csv")
  = Some (upload_content file).
Proof.
  unfold created_world. cbv zeta. cbn [fst snd files write_file].
  fold (file_id_of env w).
  rewrite lookup_insert_ne by
    (intros Heq; symmetry in Heq; by apply folders_differ in Heq).
  apply lookup_insert_eq.
Qed.

(** The artifact of an accepted request can be fetched under the name the
    response gives, provided no older row of the table carries that name:
    from the table as plain text when the request was recorded, from the
    folder otherwise. With the database down the route fails instead of
    falling back to the folder. *)
Theorem created_artifact_can_be_downloaded (env : Env) (file : Upload)
        (w w' : World) (name : string) :
  upload env (Some file) w = (RawFileCreated name, w') →
  find_by_raw_filename name (db_uploaded w) = None →
  ∃ raw,
    files w' !! path_join RECONVERTED_FOLDER name = Some raw
    ∧ download_file true "reconverted" name w'
      = Attachment (if db_save_ok env then Some "text/plain" else None) raw
    ∧ download_file false "reconverted" name w' = ServerError.
Proof.
  intros Hup Hfresh.
  apply upload_csv_created in Hup as (_ & fd & lines & _ & _ & Hcreated).
  destruct (created_world_uploaded env file lines w) as (raw & Hfile & Htab).
  rewrite Hcreated in Hfile, Htab. cbn [fst snd] in Hfile, Htab.
  exists raw. split; [done|]. split; [|done].
  unfold download_file. rewrite bool_decide_eq_true_2 by done.
  unfold find_by_raw_filename in *. rewrite Htab.
  destruct (db_save_ok env).
  - rewrite find_snoc, Hfresh. cbn [uploaded_row raw_filename].
    rewrite bool_decide_eq_true_2 by done. done.
  - rewrite Hfresh. unfold send_from_directory, folder_path.
    rewrite bool_decide_eq_false_2 by done.
    rewrite bool_decide_eq_true_2 by done.
    by rewrite Hfile.
Qed.

(** The copy of the input is fetched as [csv/<id>.csv], and the table is
    asked for the id alone: since ids start again at 1 every day, the route
    serves the input of the oldest recorded request that had this id, and
    the input just accepted only when there is none. *)
Theorem csv_download_serves_oldest_with_id (env : Env) (file : Upload)
        (w w' : World) (name : string) :
  upload env (Some file) w = (RawFileCreated name, w') →
  download_file true "csv" (file_id_of env w +:+ ".csv") w'
  = match find_by_file_id (file_id_of env w) (db_uploaded w) with
    | Some old => Attachment (Some "text/csv") (csv_content old)
    | None =>
        Attachment (if db_save_ok env then Some "text/csv" else None)
                   (upload_content file)
    end.
Proof.
  intros Hup.
  apply upload_csv_created in Hup as (_ & fd & lines & _ & _ & Hcreated).
  destruct (created_world_uploaded env file lines w) as (raw & _ & Htab).
  pose proof (created_world_csv_copy env file lines w) as Hcopy.
  rewrite Hcreated in Htab, Hcopy. cbn [fst snd] in Htab, Hcopy.
  unfold download_file. rewrite bool_decide_eq_false_2 by done.
  rewrite bool_decide_eq_true_2 by done.
  rewrite remove_sub_csv by apply file_id_no_dot.
  unfold find_by_file_id in *. rewrite Htab.
  destruct (db_save_ok env).
  - rewrite find_snoc.
    destruct (List.find _ (db_uploaded w)) as [old|]; [done|].
    cbn [uploaded_row file_id csv_content].
    by rewrite bool_decide_eq_true_2.
  - destruct (List.find _ (db_uploaded w)) as [old|]; [done|].
    unfold send_from_directory, folder_path.
    rewrite bool_decide_eq_true_2 by done. by rewrite Hcopy.
Qed.

(** A switch of backend on the same day gives out a name twice. From a
    state where neither counter exists, a request served by the database
    counter and a later one served by the counter file both get id 1 and
    the same file name, and the copy of the first input under
    [csv_files/00001.csv] is replaced by the second. *)
Theorem fallback_reuses_file_name (env1 env2 : Env) (f1 f2 : Upload)
        (w w1 w2 : World) (n1 n2 : string) :
  db_counter w = None → counter_file w = None →
  db_counter_ok env1 = true → db_counter_ok env2 = false →
  strftime_dmY (now_name env2) = strftime_dmY (now_name env1) →
  upload env1 (Some f1) w = (RawFileCreated n1, w1) →
  upload env2 (Some f2) w1 = (RawFileCreated n2, w2) →
  n2 = n1
  ∧ n1 = make_filename (strftime_dmY (now_name env1)) "00001"
  ∧ files w1 !! path_join CSV_FOLDER "00001.csv" = Some (upload_content f1)
  ∧ files w2 !! path_join CSV_FOLDER "00001.csv" = Some (upload_content f2).
Proof.
  intros Hdb Hfile Hok1 Hok2 Hday Hup1 Hup2.
  apply upload_csv_created in Hup1 as (_ & fd1 & l1 & _ & _ & Hc1).
  apply upload_csv_created in Hup2 as (_ & fd2 & l2 & _ & _ & Hc2).
  assert (Hid1 : file_id_of env1 w = "00001").
  { unfold file_id_of, get_next_file_id. by rewrite Hok1, Hdb. }
  assert (Hw1 : w1 = (created env1 f1 l1 w).2) by by rewrite Hc1.
  assert (Hfile1 : counter_file w1 = None).
  { pose proof (created_world_counters env1 f1 l1 w false) as Hv.
    rewrite <- Hw1, Hok1 in Hv.
    pose proof (proj2 (get_next_file_id_other_backend true
                         (now_alloc env1) w)) as Hcf.
    cbv beta iota in Hcf.
    unfold counter_view in Hv. rewrite Hcf, Hfile in Hv.
    by destruct (counter_file w1). }
  assert (Hid2 : file_id_of env2 w1 = "00001").
  { unfold file_id_of, get_next_file_id, get_file_counter.
    by rewrite Hok2, Hfile1. }
  pose proof (created_world_csv_copy env1 f1 l1 w) as Hcopy1.
  pose proof (created_world_csv_copy env2 f2 l2 w1) as Hcopy2.
  rewrite Hc1, Hid1 in Hcopy1. rewrite Hc2, Hid2 in Hcopy2.
  assert (Hn1 : n1 = make_filename (strftime_dmY (now_name env1)) "00001").
  { apply (f_equal fst) in Hc1. unfold created_world in Hc1.
    cbv zeta in Hc1. cbn [fst] in Hc1.
    fold (file_id_of env1 w) in Hc1. by rewrite Hid1 in Hc1. }
  assert (Hn2 : n2 = make_filename (strftime_dmY (now_name env2)) "00001").
  { apply (f_equal fst) in Hc2. unfold created_world in Hc2.
    cbv zeta in Hc2. cbn [fst] in Hc2.
    fold (file_id_of env2 w1) in Hc2. by rewrite Hid2 in Hc2. }
  split; [by rewrite Hn1, Hn2, Hday|]. split; [done|]. split; done.
Qed.

End Requests.

(** ** The further properties on concrete requests *)

Lemma file_name_identifies_id_witness :
  Ref.digits_val 0 (PyStr.zfill 5 (PyStr.str_int 123456)) = 123456%Z
  ∧ PyStr.zfill 5 (PyStr.str_int 123456) = "123456"
  ∧ PyStr.zfill 5 (PyStr.str_int 7) = "00007".
Proof.
  split; [|split; reflexivity].
  exact (proj1 (file_name_identifies_id "03112026" 123456 7
                  ltac:(lia) ltac:(lia))).
Defined.

Lemma allocated_ids_are_positive_witness :
  (allocate_all false clock_two_days empty_world).1 = [1; 2; 3; 1; 2]%Z
  ∧ Forall (fun i => (1 ≤ i)%Z)
           (allocate_all false clock_two_days empty_world).1.
Proof.
  split; [reflexivity|].
  exact (allocated_ids_are_positive false clock_two_days empty_world I).
Defined.

Lemma fallback_counter_starts_over_witness :
  (allocate_all true clock_two_days empty_world).1 = [1; 2; 3; 1; 2]%Z
  ∧ (get_next_file_id false nov_4
       (allocate_all true clock_two_days empty_world).2).1 = 1%Z.
Proof.
  split; [reflexivity|].
  exact (proj1 (fallback_counter_starts_over clock_two_days nov_4
                  empty_world eq_refl)).
Defined.

Lemma first_failing_row_ends_batch_witness :
  build_body Ref.parse_dayfirst Ref.float_fixed sample_headers
             ([row_nsdl] ++ row_short :: [row_cdsl])
  = Return (InvalidCtrPty "SHORT").
Proof.
  apply (first_failing_row_ends_batch Ref.parse_dayfirst Ref.float_fixed
           sample_headers [row_nsdl] [row_cdsl] row_short
           (lines_or_empty
              (build_body Ref.parse_dayfirst Ref.float_fixed sample_headers
                          [row_nsdl]))).
  - vm_compute. reflexivity.
  - vm_compute. reflexivity.
Defined.

Lemma blank_row_is_refused_witness :
  build_body Ref.parse_dayfirst Ref.float_fixed sample_headers
             ([row_nsdl] ++ [] :: [row_cdsl])
  = Return (InvalidCtrPty EmptyString)
  ∧ Ref.csv_reader (PyStr.splitlines (csv_text ["a,b"; EmptyString; "c,d"]))
    = [["a"; "b"]; []; ["c"; "d"]].
Proof.
  split; [|vm_compute; reflexivity].
  apply (blank_row_is_refused Ref.parse_dayfirst Ref.float_fixed
           sample_headers [row_nsdl] [row_cdsl]
           (lines_or_empty
              (build_body Ref.parse_dayfirst Ref.float_fixed sample_headers
                          [row_nsdl]))).
  vm_compute. reflexivity.
Defined.

Lemma line_shows_template_fields_only_witness :
  render_line RAW_ORDER_CDSL
    (record_or_empty (ref_canonical_record sample_headers row_cdsl)).2
  = render_line RAW_ORDER_CDSL
      (<["Brkr" := "stale"]>
         (record_or_empty (ref_canonical_record sample_headers row_cdsl)).2).
Proof.
  apply line_shows_template_fields_only.
  intros k Hk. unfold get_or_empty.
  rewrite lookup_insert_ne; [reflexivity|].
  intros <-. revert Hk. compute_done.
Defined.

Lemma transfer_date_is_the_date_witness :
  fields_of (ref_canonical_record sample_headers row_nsdl) ["Dt"; "Xferdt"]
  = Ok ["01012025"; "01012025"]
  ∧ (record_or_empty (ref_canonical_record sample_headers row_nsdl)).2
      !! "Xferdt"
    = Some (get_or_empty
              (record_or_empty
                 (ref_canonical_record sample_headers row_nsdl)).2 "Dt").
Proof.
  split; [vm_compute; reflexivity|].
  refine (proj1 (transfer_date_is_the_date Ref.parse_dayfirst
                   Ref.float_fixed sample_headers row_nsdl
                   (record_or_empty
                      (ref_canonical_record sample_headers row_nsdl)).1
                   _ _)).
  vm_compute. reflexivity.
Defined.

Lemma columns_override_constants_witness :
  fields_of (ref_canonical_record ["Dt"; "CtrPty"; "Flg"]
               ["01/01/2025"; "INXXXXXXXXXXXXXX"; "Q"])
            ["Flg"; "Trf"]
  = Ok ["Q"; "X"]
  ∧ (record_or_empty
       (ref_canonical_record ["Dt"; "CtrPty"; "Flg"]
          ["01/01/2025"; "INXXXXXXXXXXXXXX"; "Q"])).2 !! "Flg"
    = match trimmed_row ["Dt"; "CtrPty"; "Flg"]
              ["01/01/2025"; "INXXXXXXXXXXXXXX"; "Q"] !! "Flg" with
      | Some v => Some v
      | None => CONSTANT_FIELDS !! "Flg"
      end.
Proof.
  split; [vm_compute; reflexivity|].
  refine (proj2 (columns_override_constants Ref.parse_dayfirst
                   Ref.float_fixed ["Dt"; "CtrPty"; "Flg"]
                   ["01/01/2025"; "INXXXXXXXXXXXXXX"; "Q"]
                   (record_or_empty
                      (ref_canonical_record ["Dt"; "CtrPty"; "Flg"]
                         ["01/01/2025"; "INXXXXXXXXXXXXXX"; "Q"])).1
                   _ "Flg" _ _)).
  - vm_compute. reflexivity.
  - compute_done.
Defined.

Lemma reference_number_width_witness :
  fields_of (ref_canonical_record sample_headers row_cdsl) ["Chqrefno"]
  = Ok ["00000042"]
  ∧ ∃ v,
      (record_or_empty (ref_canonical_record sample_headers row_cdsl)).2
        !! "Chqrefno" = Some v
      ∧ 8 ≤ String.length v.
Proof.
  split; [vm_compute; reflexivity|].
  assert (Hrec : ref_canonical_record sample_headers row_cdsl
                 = Ok (record_or_empty
                         (ref_canonical_record sample_headers row_cdsl))).
  { vm_compute. reflexivity. }
  destruct (reference_number_width Ref.parse_dayfirst Ref.float_fixed
              sample_headers row_cdsl
              (record_or_empty
                 (ref_canonical_record sample_headers row_cdsl)).1
              (record_or_empty
                 (ref_canonical_record sample_headers row_cdsl)).2 Hrec)
    as (v & Hv & Hlen & _).
  exists v. split; [exact Hv | exact Hlen].
Defined.

Lemma accepted_upload_is_stored_witness :
  ∃ raw,
    files (ref_upload_csv env_nov_3 (Some sample_file) empty_world).2
      !! path_join CSV_FOLDER "00001.csv"
    = Some (upload_content sample_file)
    ∧ files (ref_upload_csv env_nov_3 (Some sample_file) empty_world).2
        !! path_join RECONVERTED_FOLDER sample_name = Some raw.
Proof.
  assert (Hfirst :
            ref_upload_csv env_nov_3 (Some sample_file) empty_world
            = (RawFileCreated sample_name,
               (ref_upload_csv env_nov_3 (Some sample_file) empty_world).2)).
  { vm_compute. reflexivity. }
  destruct (accepted_upload_is_stored
              Ref.sha256_hexdigest Ref.csv_reader Ref.parse_dayfirst
              Ref.float_fixed env_nov_3 sample_file empty_world _
              sample_name Hfirst)
    as (raw & Hcsv & Hraw & _).
  exists raw. split; [exact Hcsv | exact Hraw].
Defined.

Lemma first_row_date_responses_witness :
  (ref_upload_csv env_nov_3 (Some dateless_file) empty_world).1
  = MissingDtFirstRow.
Proof.
  apply (first_row_date_responses
           Ref.sha256_hexdigest Ref.csv_reader Ref.parse_dayfirst
           Ref.float_fixed env_nov_3 dateless_file empty_world).
  - reflexivity.
  - reflexivity.
  - vm_compute. lia.
  - left. vm_compute. reflexivity.
Defined.


Lemma created_artifact_can_be_downloaded_witness :
  ∃ raw,
    files (ref_upload_csv env_nov_3 (Some sample_file) empty_world).2
      !! path_join RECONVERTED_FOLDER sample_name = Some raw
    ∧ download_file true "reconverted" sample_name
        (ref_upload_csv env_nov_3 (Some sample_file) empty_world).2
      = Attachment (Some "text/plain") raw
    ∧ download_file false "reconverted" sample_name
        (ref_upload_csv env_nov_3 (Some sample_file) empty_world).2
      = ServerError.
Proof.
  assert (Hfirst :
            ref_upload_csv env_nov_3 (Some sample_file) empty_world
            = (RawFileCreated sample_name,
               (ref_upload_csv env_nov_3 (Some sample_file) empty_world).2)).
  { vm_compute. reflexivity. }
  exact (created_artifact_can_be_downloaded
           Ref.sha256_hexdigest Ref.csv_reader Ref.parse_dayfirst
           Ref.float_fixed env_nov_3 sample_file empty_world _
           sample_name Hfirst eq_refl).
Defined.

Lemma csv_download_serves_oldest_with_id_witness :
  let day1 := (ref_upload_csv env_nov_3 (Some sample_file) empty_world).2 in
  (ref_upload_csv env_nov_4 (Some other_file) day1).1
  = RawFileCreated "181207650000865934.04112026.00001"
  ∧ download_file true "csv" "00001.csv"
      (ref_upload_csv env_nov_4 (Some other_file) day1).2
    = Attachment (Some "text/csv") (upload_content sample_file)
  ∧ files (ref_upload_csv env_nov_4 (Some other_file) day1).2
      !! path_join CSV_FOLDER "00001.csv"
    = Some (upload_content other_file).
Proof.
  intros day1.
  assert (Hsecond :
            ref_upload_csv env_nov_4 (Some other_file) day1
            = (RawFileCreated "181207650000865934.04112026.00001",
               (ref_upload_csv env_nov_4 (Some other_file) day1).2)).
  { vm_compute. reflexivity. }
  split; [by rewrite Hsecond|]. split; [|vm_compute; reflexivity].
  exact (csv_download_serves_oldest_with_id
           Ref.sha256_hexdigest Ref.csv_reader Ref.parse_dayfirst
           Ref.float_fixed env_nov_4 other_file day1 _ _ Hsecond).
Defined.

Lemma fallback_reuses_file_name_witness :
  let w1 := (ref_upload_csv env_nov_3 (Some sample_file) empty_world).2 in
  (ref_upload_csv env_counter_down (Some other_file) w1).1
  = RawFileCreated sample_name
  ∧ files w1 !! path_join CSV_FOLDER "00001.csv"
    = Some (upload_content sample_file)
  ∧ files (ref_upload_csv env_counter_down (Some other_file) w1).2
      !! path_join CSV_FOLDER "00001.csv"
    = Some (upload_content other_file).
Proof.
  intros w1.
  assert (Hfirst :
            ref_upload_csv env_nov_3 (Some sample_file) empty_world
            = (RawFileCreated sample_name, w1)).
  { vm_compute. reflexivity. }
  assert (Hsecond :
            ref_upload_csv env_counter_down (Some other_file) w1
            = (RawFileCreated sample_name,
               (ref_upload_csv env_counter_down (Some other_file) w1).2)).
  { vm_compute. reflexivity. }
  split; [by rewrite Hsecond|].
  exact (proj2 (proj2 (fallback_reuses_file_name
                  Ref.sha256_hexdigest Ref.csv_reader Ref.parse_dayfirst
                  Ref.float_fixed env_nov_3 env_counter_down sample_file
                  other_file empty_world w1 _ sample_name sample_name
                  eq_refl eq_refl eq_refl eq_refl eq_refl Hfirst Hsecond))).
Defined.

Lemma counter_file_missing_key_witness :
  (get_next_file_id false nov_3
     (mkWorld None [] (Some (mkCounterJson None (Some "2026-11-03"))) ∅)).1
  = 1%Z.
Proof.
  exact (proj1 (counter_file_missing_key nov_3
                  (mkWorld None []
                     (Some (mkCounterJson None (Some "2026-11-03"))) ∅)
                  (mkCounterJson None (Some "2026-11-03"))
                  eq_refl (or_introl eq_refl))).
Defined.
